(** * lazy-gpt: the conversation session of [gpt.py]

    A shallow embedding of [src/lazy-gpt/gpt.py]: the [Model] enumeration,
    the [LazyGPT] session object with its four methods, the binary64
    arithmetic of the cost computation and Python's [.2f] formatting,
    followed by the properties of the session proved on that embedding.

    Python objects are mutable: every method is a computation over a
    [world] that holds the session's attributes together with the list of
    requests that have reached the remote chat-completion service.  An
    exception leaves the world as it is at the point of the [raise]. *)

From Stdlib Require Import ZArith Floats Lia.
From stdpp Require Import base list strings pretty gmap.

Open Scope Z_scope.

(** ** Exceptions *)

(** The exceptions that the code of [gpt.py] can raise or let through.
    [OpenAIError] stands for whatever the [openai] package itself raises
    (its own exception hierarchy, never a bare [Exception]). *)
Inductive exn : Type :=
  | ValueError (msg : string)
  | Exception (msg : string)
  | AttributeError (name : string)
  | TypeError
  | IndexError
  | ZeroDivisionError
  | OverflowError
  | OpenAIError (msg : string).

(** [raise ValueError(...)] of [change_model]: the spec's InvalidModel. *)
Definition InvalidModel : exn :=
  ValueError "Provide a valid model using the <gpt.Model> datatype.".

(** [raise Exception(...)] of [response]: the spec's RemoteCallFailed. *)
Definition RemoteCallFailed : exn :=
  Exception "The ChatCompletions request was not successfully made.".

(** ** Binary64 arithmetic and formatting *)

(** A Python [int] read as an exact (unrounded) binary number. *)
Definition Z2SF (z : Z) : spec_float :=
  match z with
  | Z0 => S754_zero false
  | Zpos p => S754_finite false p 0
  | Zneg p => S754_finite true p 0
  end.

(** [a / b] on two Python [int]s: the exact quotient rounded once to the
    nearest double, ties to even; [OverflowError] when it is out of range. *)
Definition int_truediv (a b : Z) : exn + float :=
  if decide (b = 0) then inl ZeroDivisionError
  else match SFdiv prec emax (Z2SF a) (Z2SF b) with
       | S754_infinity _ => inl OverflowError
       | q => inr (SF2Prim q)
       end.

(** A decimal literal [n / 10^k] of the source text, as the nearest double. *)
Definition decimal_literal (n d : Z) : float :=
  SF2Prim (SFdiv prec emax (Z2SF n) (Z2SF d)).

(** [n / d] for [0 < d], rounded to the nearest integer, ties to even. *)
Definition round_half_even (n d : Z) : Z :=
  let q := n / d in
  match (2 * (n mod d)) ?= d with
  | Lt => q
  | Gt => q + 1
  | Eq => if Z.even q then q else q + 1
  end.

(** The magnitude [m * 2^e] in hundredths, correctly rounded. *)
Definition hundredths (m : positive) (e : Z) : Z :=
  if 0 <=? e then Z.pos m * 100 * 2 ^ e
  else round_half_even (Z.pos m * 100) (2 ^ (- e)).

Definition two_digits (n : Z) : string :=
  if n <? 10 then "0" +:+ pretty n else pretty n.

Definition fixed2 (h : Z) : string :=
  pretty (h / 100) +:+ "." +:+ two_digits (h mod 100).

Definition sign_prefix (s : bool) : string := if s then "-" else "".

(** [format(x, ".2f")]: the exact binary value of [x] rounded to two
    decimals (ties to even), with the sign of [x] kept, also on zero. *)
Definition format_2f (x : float) : string :=
  match Prim2SF x with
  | S754_nan => "nan"
  | S754_infinity s => sign_prefix s +:+ "inf"
  | S754_zero s => sign_prefix s +:+ "0.00"
  | S754_finite s m e => sign_prefix s +:+ fixed2 (hundredths m e)
  end.

(** ** The [Model] enumeration *)

Inductive Model : Type := GPT4 | GPT4_32K | GPT3_5.

(** [member.value]: the identifier and the two rates per 1000 tokens. *)
Definition value (m : Model) : string * float * float :=
  match m with
  | GPT4 => ("gpt-4", decimal_literal 3 100, decimal_literal 6 100)
  | GPT4_32K => ("gpt-4-32k", decimal_literal 6 100, decimal_literal 12 100)
  | GPT3_5 => ("gpt-3.5-turbo", decimal_literal 2 1000, decimal_literal 2 1000)
  end.

(** The members of the class body, by name, in definition order. *)
Definition Model_members : list (string * Model) :=
  [("GPT4", GPT4); ("GPT4_32K", GPT4_32K); ("GPT3_5", GPT3_5)].

(** [Model.<name>]: attribute access on the enumeration class. *)
Definition Model_getattr (name : string) : exn + Model :=
  match list_find (fun entry => bool_decide (entry.1 = name)) Model_members with
  | Some (_, (_, m)) => inr m
  | None => inl (AttributeError name)
  end.

(** ** Python values passed by callers *)

Inductive pyval : Type :=
  | PyNone
  | PyBool (b : bool)
  | PyInt (z : Z)
  | PyFloat (f : float)
  | PyStr (s : string)
  | PyTuple3 (s : string) (a b : float)
  | PyModel (m : Model).

(** [isinstance(v, Model)] *)
Definition isinstance_Model (v : pyval) : bool :=
  match v with PyModel _ => true | _ => false end.

(** ** The helper module and the remote service *)

Inductive Role : Type := system | user | assistant.

(** One entry of the outbound message list: [{"role": ..., "content": ...}]. *)
Record Message : Type := { role : Role; content : string }.

(** An exchange of the history, the two-element list [[prompt, reply]];
    [None] is Python's [None], a reply that has not been set. *)
Definition Exchange : Type := string * option string.

Module helpers.

(** The messages that one exchange contributes. *)
Definition exchange_messages (exchange : Exchange) : list Message :=
  {| role := user; content := exchange.1 |} ::
  match exchange.2 with
  | Some reply => [{| role := assistant; content := reply |}]
  | None => []
  end.

(** Modelled from the spec: [helpers.compile_messages] is imported by
    [gpt.py] but the module [helpers] is not among the sources.  The spec
    (4.2, respond, step 2) says: an optional leading system message (if
    the system prompt is set) followed by, for every exchange in history,
    a user-role message with its prompt and (if the reply is set) an
    assistant-role message with its reply.  Written as the loop over the
    history that appends to the compiled list. *)
Definition compile_messages (messages : list Exchange)
    (system_prompt : option string) : list Message :=
  let compiled :=
    match system_prompt with
    | Some text => [{| role := system; content := text |}]
    | None => []
    end in
  fold_left (fun compiled exchange => compiled ++ exchange_messages exchange)
            messages compiled.

End helpers.

Module openai.

(** The result of a chat completion, in the shape the code reads it:
    [response["usage"]["prompt_tokens"]],
    [response["usage"]["completion_tokens"]] and, for each choice,
    [choice["message"]["content"]]. *)
Record ChatCompletion : Type := {
  usage_prompt_tokens : Z;
  usage_completion_tokens : Z;
  choices : list string
}.

(** What is handed to [ChatCompletion.create]. *)
Record Request : Type := {
  req_model : string;
  req_messages : list Message;
  req_kwargs : gmap string pyval
}.

(** What one call of [ChatCompletion.create] does: it returns a
    completion or [None], or it raises an error of the package. *)
Inductive Outcome : Type :=
  | Returns (r : option ChatCompletion)
  | Raises (msg : string).

End openai.
Export openai.

(** ** The session object *)

Module LazyGPT.

(** The attribute [cost]: [__init__] stores the builtin type [str] in it
    (the line is [self.cost = str]); [response] stores a string. *)
Inductive cost_attr : Type :=
  | CostBuiltinStr
  | CostText (text : string).

(** The instance attributes. *)
Record t : Type := {
  _model : string;
  _rate : float * float;
  _system : option string;
  messages : list Exchange;
  cost : cost_attr;
  prompt_tokens : Z;
  completion_tokens : Z
}.

(** The session together with the requests the remote service has
    received so far, oldest first. *)
Record world : Type := { self : t; sent : list Request }.

(** A computation that may raise, over the mutable world. *)
Definition M (A : Type) : Type := world -> (exn + A) * world.

Definition ret {A} (a : A) : M A := fun w => (inr a, w).

Definition raise {A} (e : exn) : M A := fun w => (inl e, w).

Definition bind {A B} (c : M A) (k : A -> M B) : M B :=
  fun w => match c w with
           | (inr a, w') => k a w'
           | (inl e, w') => (inl e, w')
           end.

Declare Scope py_scope.
Delimit Scope py_scope with py.
Notation "x <- c ;; k" := (bind c (fun x => k))
  (at level 20, c at level 99, k at level 200, only parsing) : py_scope.
Notation "c ;; k" := (bind c (fun _ => k))
  (at level 100, k at level 200, only parsing, right associativity) : py_scope.
Open Scope py_scope.

(** Reading an attribute of [self]. *)
Definition get {A} (attr : t -> A) : M A := fun w => (inr (attr (self w)), w).

(** Rebinding the attributes of [self]. *)
Definition modify (f : t -> t) : M unit :=
  fun w => (inr tt, {| self := f (self w); sent := sent w |}).

(** A pure partial operation inside a method. *)
Definition lift {A} (r : exn + A) : M A :=
  match r with inl e => raise e | inr a => ret a end.

Definition set_model (v : string) (s : t) : t :=
  {| _model := v; _rate := _rate s; _system := _system s;
     messages := messages s; cost := cost s;
     prompt_tokens := prompt_tokens s;
     completion_tokens := completion_tokens s |}.

Definition set_rate (v : float * float) (s : t) : t :=
  {| _model := _model s; _rate := v; _system := _system s;
     messages := messages s; cost := cost s;
     prompt_tokens := prompt_tokens s;
     completion_tokens := completion_tokens s |}.

Definition set_system (v : option string) (s : t) : t :=
  {| _model := _model s; _rate := _rate s; _system := v;
     messages := messages s; cost := cost s;
     prompt_tokens := prompt_tokens s;
     completion_tokens := completion_tokens s |}.

Definition set_messages (v : list Exchange) (s : t) : t :=
  {| _model := _model s; _rate := _rate s; _system := _system s;
     messages := v; cost := cost s;
     prompt_tokens := prompt_tokens s;
     completion_tokens := completion_tokens s |}.

Definition set_cost (v : cost_attr) (s : t) : t :=
  {| _model := _model s; _rate := _rate s; _system := _system s;
     messages := messages s; cost := v;
     prompt_tokens := prompt_tokens s;
     completion_tokens := completion_tokens s |}.

Definition set_prompt_tokens (v : Z) (s : t) : t :=
  {| _model := _model s; _rate := _rate s; _system := _system s;
     messages := messages s; cost := cost s;
     prompt_tokens := v;
     completion_tokens := completion_tokens s |}.

Definition set_completion_tokens (v : Z) (s : t) : t :=
  {| _model := _model s; _rate := _rate s; _system := _system s;
     messages := messages s; cost := cost s;
     prompt_tokens := prompt_tokens s;
     completion_tokens := v |}.

(** [change_model(self, model)], lines 75-84. *)
Definition change_model (model : pyval) : M unit :=
  match model with
  | PyModel m =>
      modify (set_model (value m).1.1);;
      modify (set_rate ((value m).1.2, (value m).2))
  | _ => raise InvalidModel
  end.

(** [__init__(self, model, system)], lines 40-49, on the object that the
    call of the class has just allocated. *)
Definition __init__ (model : pyval) (system_prompt : option string) : M unit :=
  change_model model;;
  modify (set_system system_prompt);;
  modify (set_messages []);;
  modify (set_cost CostBuiltinStr);;
  modify (set_prompt_tokens 0);;
  modify (set_completion_tokens 0).

(** [get_messages(self)], lines 86-96: one dictionary with the single key
    ["user"] and one with the single key ["assistant"] per exchange. *)
Definition get_messages : M (list (gmap string (option string))) :=
  history <- get messages;;
  ret (fold_left
         (fun (out : list (gmap string (option string))) (exchange : Exchange) =>
            let user_message := {[ "user" := Some exchange.1 ]} in
            let gpt_message := {[ "assistant" := exchange.2 ]} in
            out ++ [user_message; gpt_message])
         history []).

(** What [response] returns: [reply if just_reply else response]. *)
Inductive answer : Type :=
  | Reply (text : string)
  | Full (completion : ChatCompletion).

(** [response["choices"][0]]: indexing an empty list raises. *)
Definition first_choice (completion : ChatCompletion) : exn + string :=
  match choices completion with
  | [] => inl IndexError
  | text :: _ => inr text
  end.

(** [history[-1][1] = reply]: the last exchange gets its reply; indexing
    an empty list raises. *)
Definition set_last_reply (history : list Exchange) (reply : string)
    : exn + list Exchange :=
  match length history with
  | O => inl IndexError
  | S i => inr (alter (fun exchange : Exchange => (exchange.1, Some reply)) i history)
  end.

(** Whether [kwargs] repeats a keyword that the call in [response]
    already passes by name. *)
Definition duplicate_keyword (kwargs : gmap string pyval) : bool :=
  bool_decide (is_Some (kwargs !! "model") \/ is_Some (kwargs !! "messages")).

Section Service.

(** The remote service: what its [n]-th call (counted from 0) does.  The
    code is deterministic, so its behaviours against any environment are
    those against such scripts. *)
Variable service : nat -> Outcome.

(** [openai.ChatCompletion.create(model=..., messages=..., **kwargs)],
    lines 57-61.  A [kwargs] that itself holds [model] or [messages] gives
    the keyword twice: Python raises [TypeError] at the call site and the
    service is not reached. *)
Definition create (model : string) (compiled : list Message)
    (kwargs : gmap string pyval) : M (option ChatCompletion) :=
  fun w =>
    if duplicate_keyword kwargs
    then (inl TypeError, w)
    else
      let request := {| req_model := model; req_messages := compiled;
                        req_kwargs := kwargs |} in
      let w' := {| self := self w; sent := sent w ++ [request] |} in
      match service (length (sent w)) with
      | Returns r => (inr r, w')
      | Raises msg => (inl (OpenAIError msg), w')
      end.

(** [response(self, prompt, just_reply, **kwargs)], lines 51-73. *)
Definition response (prompt : string) (just_reply : bool)
    (kwargs : gmap string pyval) : M answer :=
  history <- get messages;;
  modify (set_messages (history ++ [(prompt, None)]));;
  history <- get messages;;
  system_prompt <- get _system;;
  let compiled := helpers.compile_messages history system_prompt in
  model <- get _model;;
  response <- create model compiled kwargs;;
  match response with
  | None => raise RemoteCallFailed
  | Some response =>
      n <- get prompt_tokens;;
      modify (set_prompt_tokens (n + usage_prompt_tokens response));;
      n <- get completion_tokens;;
      modify (set_completion_tokens (n + usage_completion_tokens response));;
      p <- get prompt_tokens;;
      thousands_in <- lift (int_truediv p 1000);;
      rate <- get _rate;;
      c <- get completion_tokens;;
      thousands_out <- lift (int_truediv c 1000);;
      let cost := (thousands_in * rate.1 + thousands_out * rate.2)%float in
      modify (set_cost (CostText ("$" +:+ format_2f cost)));;
      reply <- lift (first_choice response);;
      history <- get messages;;
      history <- lift (set_last_reply history reply);;
      modify (set_messages history);;
      ret (if just_reply then Reply reply else Full response)
  end.

(** A caller that makes the given calls of [response] one after the
    other and stops at the first exception. *)
Fixpoint respond_all (calls : list (string * bool * gmap string pyval))
    : M (list answer) :=
  match calls with
  | [] => ret []
  | (prompt, just_reply, kwargs) :: rest =>
      first <- response prompt just_reply kwargs;;
      others <- respond_all rest;;
      ret (first :: others)
  end.

End Service.

(** The object that calling the class allocates, before [__init__] runs.
    It has no instance attribute yet.  The record cannot leave a field
    out, so every field holds a placeholder that [__init__] never
    assigns: whatever is true of a constructed session is then true
    because of an assignment of [__init__], which overwrites every field
    before it returns (lemma [init_assigns_every_attribute]). *)
Definition allocated : t :=
  {| _model := "<no attribute>"; _rate := (nan, nan);
     _system := Some "<no attribute>";
     messages := [("<no attribute>", None)];
     cost := CostText "<no attribute>";
     prompt_tokens := -1; completion_tokens := -1 |}.

(** [LazyGPT(model, system)] with both arguments given: the new
    session, or the exception of [__init__]. *)
Definition construct (model : pyval) (system_prompt : option string) : exn + t :=
  match __init__ model system_prompt {| self := allocated; sent := [] |} with
  | (inr _, w) => inr (self w)
  | (inl e, _) => inl e
  end.

(** The function object that [def __init__(self, model: Model =
    Model.GPT_3, system: str = None)] creates: its default arguments,
    evaluated once, when the [def] statement runs. *)
Record init_defaults : Type := {
  default_model : pyval;
  default_system : option string
}.

(** Executing the body of [class LazyGPT], line 40: the default
    expressions are evaluated left to right. *)
Definition class_body : exn + init_defaults :=
  match Model_getattr "GPT_3" with
  | inl e => inl e
  | inr m => inr {| default_model := PyModel m; default_system := None |}
  end.

(** A call [LazyGPT(...)] on a class whose body has run: an argument
    that is left out takes its default. *)
Definition call (cls : init_defaults) (model : option pyval)
    (system_prompt : option (option string)) : exn + t :=
  construct (default (default_model cls) model)
            (default (default_system cls) system_prompt).

(** Importing [gpt.py] and then calling the class. *)
Definition import_and_call (model : option pyval)
    (system_prompt : option (option string)) : exn + t :=
  match class_body with
  | inl e => inl e
  | inr cls => call cls model system_prompt
  end.

End LazyGPT.

(** ** The cost as the spec words it *)

(** The spec's formula (4.2, respond, step 6) on the two cumulative
    counters and the rate pair of the active model, in the arithmetic of
    the code: binary64, and a string with two decimals. *)
Definition cost_formula (prompt_units completion_units : Z)
    (rates : float * float) : exn + string :=
  match int_truediv prompt_units 1000, int_truediv completion_units 1000 with
  | inr a, inr b => inr ("$" +:+ format_2f (a * rates.1 + b * rates.2)%float)
  | inl e, _ => inl e
  | _, inl e => inl e
  end.

(** The sum of a list of token counts. *)
Definition total (counts : list Z) : Z := foldr Z.add 0 counts.

(** The optional leading message of the outbound list. *)
Definition leading_messages (system_prompt : option string) : list Message :=
  match system_prompt with
  | Some text => [{| role := system; content := text |}]
  | None => []
  end.

(** The rate pair that [change_model] stores for a member. *)
Definition rates (m : Model) : float * float := ((value m).1.2, (value m).2).

(** The session once [response] has appended the pending exchange. *)
Definition pending (prompt : string) (s : LazyGPT.t) : LazyGPT.t :=
  LazyGPT.set_messages (LazyGPT.messages s ++ [(prompt, None)]) s.

(** The request that [response] hands to the service from session [s]. *)
Definition request_of (prompt : string) (kwargs : gmap string pyval)
    (s : LazyGPT.t) : Request :=
  {| req_model := LazyGPT._model s;
     req_messages :=
       helpers.compile_messages (LazyGPT.messages s ++ [(prompt, None)])
                                (LazyGPT._system s);
     req_kwargs := kwargs |}.

(** The session once both counters have taken in the usage of [r]. *)
Definition counted (r : ChatCompletion) (s : LazyGPT.t) : LazyGPT.t :=
  LazyGPT.set_completion_tokens
    (LazyGPT.completion_tokens s + usage_completion_tokens r)
    (LazyGPT.set_prompt_tokens
       (LazyGPT.prompt_tokens s + usage_prompt_tokens r) s).

(** ** Sample sessions *)

(** A service that always returns the same completion: 1500 prompt
    tokens, 500 completion tokens, one choice. *)
Definition sample_completion : ChatCompletion :=
  {| usage_prompt_tokens := 1500; usage_completion_tokens := 500;
     choices := ["hello"] |}.

Definition sample_service (n : nat) : Outcome := Returns (Some sample_completion).

(** A service whose calls return [None]. *)
Definition silent_service (n : nat) : Outcome := Returns None.

(** The session that [LazyGPT(Model.GPT4)] builds. *)
Definition gpt4_session : LazyGPT.t :=
  {| LazyGPT._model := "gpt-4";
     LazyGPT._rate := (decimal_literal 3 100, decimal_literal 6 100);
     LazyGPT._system := None;
     LazyGPT.messages := [];
     LazyGPT.cost := LazyGPT.CostBuiltinStr;
     LazyGPT.prompt_tokens := 0;
     LazyGPT.completion_tokens := 0 |}.

Definition sample_world : LazyGPT.world :=
  {| LazyGPT.self := gpt4_session; LazyGPT.sent := [] |}.

(** A session with one answered and one unanswered exchange. *)
Definition interrupted_world : LazyGPT.world :=
  {| LazyGPT.self :=
       LazyGPT.set_messages [("hi", Some "hello"); ("more", None)] gpt4_session;
     LazyGPT.sent := [] |}.

(** A session in use: two exchanges and tokens counted. *)
Definition used_world : LazyGPT.world :=
  {| LazyGPT.self :=
       LazyGPT.set_prompt_tokens 1500
         (LazyGPT.set_completion_tokens 500
            (LazyGPT.set_cost (LazyGPT.CostText "$0.07")
               (LazyGPT.set_messages [("hi", Some "hello"); ("more", None)]
                  gpt4_session)));
     LazyGPT.sent := [] |}.

Definition sample_calls : list (string * bool * gmap string pyval) :=
  [("hi", true, ∅); ("more", false, ∅)].

(** ** The package settings *)

(** The two attributes of the [openai] package that [config] assigns;
    [None] is an attribute that holds Python's [None]. *)
Record settings : Type := {
  api_key : option string;
  organization : option string
}.

(** [config(key, organization)], lines 99-105. *)
Definition config (key : string) (org : option string) (g : settings) : settings :=
  let g := {| api_key := Some key; organization := organization g |} in
  match org with
  | Some name => {| api_key := api_key g; organization := Some name |}
  | None => g
  end.

(** A caller that configures the package several times in a row. *)
Definition configure (calls : list (string * option string)) (g : settings)
    : settings :=
  fold_left (fun g call => config call.1 call.2 g) calls g.

(** ** Callers of the session *)

(** One use of a session by its owner. *)
Inductive method_call : Type :=
  | CallChangeModel (model : pyval)
  | CallResponse (prompt : string) (just_reply : bool) (kwargs : gmap string pyval)
  | CallGetMessages.

(** The world after one method call, whether it returned or raised: a
    caller that catches the exception goes on with the same object. *)
Definition perform (service : nat -> Outcome) (c : method_call)
    (w : LazyGPT.world) : LazyGPT.world :=
  match c with
  | CallChangeModel model => (LazyGPT.change_model model w).2
  | CallResponse prompt just_reply kwargs =>
      (LazyGPT.response service prompt just_reply kwargs w).2
  | CallGetMessages => (LazyGPT.get_messages w).2
  end.

Definition perform_all (service : nat -> Outcome) (calls : list method_call)
    (w : LazyGPT.world) : LazyGPT.world :=
  fold_left (fun w c => perform service c w) calls w.

(** Whether a method call is a call of [response]. *)
Definition is_response (c : method_call) : bool :=
  match c with CallResponse _ _ _ => true | _ => false end.

(** The prompts of the calls of [response] among some method calls. *)
Definition prompts_of (calls : list method_call) : list string :=
  omap (fun c => match c with
                 | CallResponse prompt _ _ => Some prompt
                 | _ => None
                 end) calls.

(** The two dictionaries of the transcript for one exchange. *)
Definition transcript_entries (exchange : Exchange)
    : list (gmap string (option string)) :=
  [ {[ "user" := Some exchange.1 ]}; {[ "assistant" := exchange.2 ]} ].

Definition is_infinite (x : spec_float) : bool :=
  match x with S754_infinity _ => true | _ => false end.

(** ** More sample sessions *)





(** A service that raises. *)
Definition failing_service (n : nat) : Outcome := Raises "rate limit".

(** Keyword arguments that repeat [model]. *)
Definition model_kwargs : gmap string pyval := {[ "model" := PyStr "gpt-4" ]}.

(** A short conversation with a failure in the middle. *)
Definition mixed_service (n : nat) : Outcome :=
  match n with
  | 1%nat => Returns None
  | _ => Returns (Some sample_completion)
  end.

Definition mixed_calls : list method_call :=
  [CallResponse "hi" true ∅; CallGetMessages; CallResponse "more" true ∅;
   CallChangeModel (PyStr "gpt-5"); CallChangeModel (PyModel GPT3_5);
   CallResponse "again" false ∅].

(** * Properties *)

Import LazyGPT.

(** ** Construction and model changes *)

Lemma change_model_valid (m : Model) (w : world) :
  change_model (PyModel m) w =
  (inr tt, {| self := set_rate (rates m) (set_model (value m).1.1 (self w));
              sent := sent w |}).
Proof. reflexivity. Qed.

Lemma change_model_invalid (model : pyval) (w : world) :
  isinstance_Model model = false ->
  change_model model w = (inl InvalidModel, w).
Proof. destruct model; simpl; intros Hv; try reflexivity; discriminate Hv. Qed.

Lemma init_assigns_every_attribute (m : Model) (system_prompt : option string)
    (w : world) :
  __init__ (PyModel m) system_prompt w =
  (inr tt,
   {| self := {| _model := (value m).1.1; _rate := rates m;
                 _system := system_prompt; messages := [];
                 cost := CostBuiltinStr;
                 prompt_tokens := 0; completion_tokens := 0 |};
      sent := sent w |}).
Proof. reflexivity. Qed.

Lemma init_invalid (model : pyval) (system_prompt : option string) (w : world) :
  isinstance_Model model = false ->
  __init__ model system_prompt w = (inl InvalidModel, w).
Proof.
  intros Hv. unfold __init__, bind.
  rewrite (change_model_invalid model w Hv). reflexivity.
Qed.

(** A session that the constructor returns was built from a member. *)
Lemma construct_returns (model : pyval) (system_prompt : option string) (s : t) :
  construct model system_prompt = inr s ->
  exists m, model = PyModel m /\
            s = {| _model := (value m).1.1; _rate := rates m;
                   _system := system_prompt; messages := [];
                   cost := CostBuiltinStr;
                   prompt_tokens := 0; completion_tokens := 0 |}.
Proof.
  unfold construct. destruct (isinstance_Model model) eqn:Hv.
  - destruct model; try discriminate Hv.
    rewrite init_assigns_every_attribute. intros [= <-]. by eexists.
  - rewrite init_invalid by exact Hv. discriminate.
Qed.

(** C4: the constructor fails with InvalidModel (the [ValueError] of
    [change_model]) on every argument that is not a member of [Model], and
    on a member it yields a session with an empty history and both token
    counters at zero.  Both are the work of [__init__]: on any object,
    whatever its attributes hold, [__init__] raises InvalidModel without
    assigning anything on a non-member, and on a member it returns with
    the history emptied and both counters set to zero. *)
Theorem construct_validates_model (model : pyval) (system_prompt : option string) :
  (isinstance_Model model = false ->
   construct model system_prompt = inl InvalidModel /\
   forall w, __init__ model system_prompt w = (inl InvalidModel, w)) /\
  (isinstance_Model model = true ->
   (exists s, construct model system_prompt = inr s /\
              messages s = [] /\
              prompt_tokens s = 0 /\ completion_tokens s = 0) /\
   forall w, exists w',
     __init__ model system_prompt w = (inr tt, w') /\
     messages (self w') = [] /\
     prompt_tokens (self w') = 0 /\ completion_tokens (self w') = 0 /\
     sent w' = sent w).
Proof.
  split; intros Hv.
  - split.
    + unfold construct. rewrite init_invalid by exact Hv. reflexivity.
    + intros w. apply init_invalid, Hv.
  - destruct model; try discriminate Hv. split.
    + unfold construct. rewrite init_assigns_every_attribute.
      eexists. split; [reflexivity|]. simpl. auto.
    + intros w. rewrite init_assigns_every_attribute.
      eexists. split; [reflexivity|]. simpl. auto.
Qed.

Lemma construct_validates_model_witness :
  (construct (PyStr "gpt-4") None = inl InvalidModel /\
   __init__ (PyStr "gpt-4") None used_world = (inl InvalidModel, used_world)) /\
  (exists s, construct (PyModel GPT3_5) (Some "Be brief.") = inr s /\
             messages s = [] /\
             prompt_tokens s = 0 /\ completion_tokens s = 0) /\
  exists w',
    __init__ (PyModel GPT3_5) (Some "Be brief.") used_world = (inr tt, w') /\
    messages (self w') = [] /\
    prompt_tokens (self w') = 0 /\ completion_tokens (self w') = 0 /\
    sent w' = sent used_world.
Proof.
  split; [|split].
  - destruct (proj1 (construct_validates_model (PyStr "gpt-4") None) eq_refl)
      as [Hnew Hinit].
    split; [exact Hnew|exact (Hinit used_world)].
  - apply (proj2 (construct_validates_model (PyModel GPT3_5) (Some "Be brief."))).
    reflexivity.
  - apply (proj2 (construct_validates_model (PyModel GPT3_5) (Some "Be brief."))).
    reflexivity.
Defined.

(** C6: on a member of [Model], [change_model] stores the member's
    identifier and rate pair and leaves the history, both token counters,
    the cost, the system prompt and the list of sent requests as they
    were. *)
Theorem change_model_frame (m : Model) (w : world) :
  exists w',
    change_model (PyModel m) w = (inr tt, w') /\
    _model (self w') = (value m).1.1 /\
    _rate (self w') = ((value m).1.2, (value m).2) /\
    messages (self w') = messages (self w) /\
    prompt_tokens (self w') = prompt_tokens (self w) /\
    completion_tokens (self w') = completion_tokens (self w) /\
    cost (self w') = cost (self w) /\
    _system (self w') = _system (self w) /\
    sent w' = sent w.
Proof.
  rewrite change_model_valid. eexists. split; [reflexivity|].
  simpl. repeat split.
Qed.

(** C8: constructing a session with a member [m] and then calling
    [change_model] with the same [m] leaves the identifier and the rate
    pair as the constructor set them; the session is unchanged as a
    whole. *)
Theorem change_model_after_construct (m : Model) (system_prompt : option string)
    (log : list Request) :
  exists s w',
    construct (PyModel m) system_prompt = inr s /\
    change_model (PyModel m) {| self := s; sent := log |} = (inr tt, w') /\
    _model (self w') = _model s /\
    _rate (self w') = _rate s /\
    w' = {| self := s; sent := log |}.
Proof.
  unfold construct. rewrite init_assigns_every_attribute.
  do 2 eexists. split; [reflexivity|].
  rewrite change_model_valid. split; [reflexivity|].
  simpl. repeat split.
Qed.

(** C9: the enumeration has the members GPT4, GPT4_32K and GPT3_5 only;
    the default expression [Model.GPT_3] of [__init__] raises
    [AttributeError]; so the body of the class does not run to its end,
    there is no class object to call, and no call after an import,
    whatever its arguments, yields a session. *)
Theorem default_model_is_not_a_member :
  Model_members.*1 = ["GPT4"; "GPT4_32K"; "GPT3_5"] /\
  (forall m, m ∈ Model_members.*2) /\
  Model_getattr "GPT_3" = inl (AttributeError "GPT_3") /\
  class_body = inl (AttributeError "GPT_3") /\
  (forall cls, class_body <> inr cls) /\
  (forall model system_prompt,
     import_and_call model system_prompt = inl (AttributeError "GPT_3")).
Proof.
  split; [reflexivity|].
  split; [intros []; simpl; set_solver|].
  split; [reflexivity|].
  split; [reflexivity|].
  split; [intros cls H; discriminate H|].
  intros model system_prompt. reflexivity.
Qed.

(** ** The transcript *)

(** The two dictionaries that [get_messages] emits for one exchange. *)
Lemma transcript_loop (history : list Exchange)
    (out : list (gmap string (option string))) :
  fold_left
    (fun (out : list (gmap string (option string))) (exchange : Exchange) =>
       out ++ [ {[ "user" := Some exchange.1 ]}; {[ "assistant" := exchange.2 ]} ])
    history out
  = out ++ flat_map
             (fun exchange : Exchange =>
                [ {[ "user" := Some exchange.1 ]}; {[ "assistant" := exchange.2 ]} ])
             history.
Proof.
  revert out. induction history as [|exchange history IH]; intros out; simpl.
  - by rewrite app_nil_r.
  - rewrite IH. by rewrite <- app_assoc.
Qed.

Lemma transcript_length {A B} (f g : A -> B) (l : list A) :
  length (flat_map (fun a => [f a; g a]) l) = (2 * length l)%nat.
Proof. induction l as [|a l IH]; simpl; [reflexivity|]. rewrite IH. lia. Qed.

Lemma transcript_lookup {A B} (f g : A -> B) (l : list A) (i : nat) (a : A) :
  l !! i = Some a ->
  flat_map (fun a => [f a; g a]) l !! (2 * i)%nat = Some (f a) /\
  flat_map (fun a => [f a; g a]) l !! (2 * i + 1)%nat = Some (g a).
Proof.
  revert i. induction l as [|b l IH]; intros i Hi; [discriminate Hi|].
  destruct i as [|i]; simpl in Hi.
  - injection Hi as ->. split; reflexivity.
  - replace (2 * S i)%nat with (S (S (2 * i))) by lia.
    replace (S (S (2 * i)) + 1)%nat with (S (S (2 * i + 1))) by lia.
    simpl. exact (IH i Hi).
Qed.

(** C7: [get_messages] returns, without changing the session or the
    world around it, a list of twice as many entries as the history has
    exchanges; entry [2i] is the dictionary with the key ["user"] and the
    prompt of exchange [i], entry [2i+1] the dictionary with the key
    ["assistant"] and its reply, which is [None] while the reply is
    unset. *)
Theorem get_messages_transcript (w : world) :
  exists out : list (gmap string (option string)),
    get_messages w = (inr out, w) /\
    length out = (2 * length (messages (self w)))%nat /\
    forall (i : nat) (prompt : string) (reply : option string),
      messages (self w) !! i = Some (prompt, reply) ->
      out !! (2 * i)%nat = Some {[ "user" := Some prompt ]} /\
      out !! (2 * i + 1)%nat = Some {[ "assistant" := reply ]}.
Proof.
  eexists. split.
  - unfold get_messages, bind, get, ret. rewrite transcript_loop. reflexivity.
  - simpl. split.
    + apply transcript_length.
    + intros i prompt reply Hi.
      exact (transcript_lookup
               (fun exchange : Exchange => {[ "user" := Some exchange.1 ]})
               (fun exchange : Exchange => {[ "assistant" := exchange.2 ]})
               _ i (prompt, reply) Hi).
Qed.

(** ** The outbound message list *)

Lemma compile_messages_flat (history : list Exchange) (system_prompt : option string) :
  helpers.compile_messages history system_prompt =
  leading_messages system_prompt ++ flat_map helpers.exchange_messages history.
Proof.
  unfold helpers.compile_messages, leading_messages.
  generalize (match system_prompt with
              | Some text => [{| role := system; content := text |}]
              | None => []
              end).
  induction history as [|exchange history IH]; intros compiled; simpl.
  - by rewrite app_nil_r.
  - rewrite IH. by rewrite <- app_assoc.
Qed.

Lemma compile_messages_pending (history : list Exchange) (prompt : string)
    (system_prompt : option string) :
  helpers.compile_messages (history ++ [(prompt, None)]) system_prompt =
  leading_messages system_prompt
  ++ flat_map helpers.exchange_messages history
  ++ [{| role := user; content := prompt |}].
Proof.
  rewrite compile_messages_flat, flat_map_app. simpl. reflexivity.
Qed.

(** ** One call of [response], step by step *)

Lemma set_last_reply_pending (history : list Exchange) (prompt reply : string) :
  set_last_reply (history ++ [(prompt, None)]) reply =
  inr (history ++ [(prompt, Some reply)]).
Proof.
  unfold set_last_reply. rewrite length_app, Nat.add_comm. simpl.
  replace (length history) with (length history + 0)%nat at 1 by lia.
  rewrite alter_app_r. reflexivity.
Qed.

Lemma response_steps (service : nat -> Outcome) (prompt : string)
    (just_reply : bool) (kwargs : gmap string pyval) (w : world) :
  response service prompt just_reply kwargs w =
  let s1 := pending prompt (self w) in
  if duplicate_keyword kwargs
  then (inl TypeError, {| self := s1; sent := sent w |})
  else
    let log := sent w ++ [request_of prompt kwargs (self w)] in
    match service (length (sent w)) with
    | Raises msg => (inl (OpenAIError msg), {| self := s1; sent := log |})
    | Returns None => (inl RemoteCallFailed, {| self := s1; sent := log |})
    | Returns (Some r) =>
        let s2 := counted r s1 in
        match cost_formula (prompt_tokens s2) (completion_tokens s2) (_rate s2) with
        | inl e => (inl e, {| self := s2; sent := log |})
        | inr text =>
            let s3 := set_cost (CostText text) s2 in
            match first_choice r with
            | inl e => (inl e, {| self := s3; sent := log |})
            | inr reply =>
                (inr (if just_reply then Reply reply else Full r),
                 {| self := set_messages
                              (messages (self w) ++ [(prompt, Some reply)]) s3;
                    sent := log |})
            end
        end
    end.
Proof.
  unfold response, create, bind, get, modify; simpl.
  destruct (duplicate_keyword kwargs); [reflexivity|].
  destruct (service (length (sent w))) as [[r|]|msg]; try reflexivity.
  unfold cost_formula; simpl.
  destruct (int_truediv _ 1000) as [e|a]; [reflexivity|]; simpl.
  destruct (int_truediv _ 1000) as [e|b]; [reflexivity|]; simpl.
  destruct (first_choice r) as [e|reply]; [reflexivity|]; simpl.
  rewrite set_last_reply_pending. reflexivity.
Qed.

Lemma int_truediv_error (a b : Z) (e : exn) :
  int_truediv a b = inl e -> e = ZeroDivisionError \/ e = OverflowError.
Proof.
  unfold int_truediv. destruct (decide (b = 0)).
  - intros [= <-]. by left.
  - destruct (SFdiv prec emax (Z2SF a) (Z2SF b)); try discriminate.
    intros [= <-]. by right.
Qed.

Lemma cost_formula_error (p c : Z) (rate : float * float) (e : exn) :
  cost_formula p c rate = inl e -> e = ZeroDivisionError \/ e = OverflowError.
Proof.
  unfold cost_formula.
  destruct (int_truediv p 1000) as [e1|a] eqn:Hp.
  - intros [= <-]. exact (int_truediv_error _ _ _ Hp).
  - destruct (int_truediv c 1000) as [e2|b] eqn:Hc; [|discriminate].
    intros [= <-]. exact (int_truediv_error _ _ _ Hc).
Qed.

Lemma first_choice_error (r : ChatCompletion) (e : exn) :
  first_choice r = inl e -> e = IndexError.
Proof.
  unfold first_choice. destruct (choices r); [|discriminate].
  by intros [= <-].
Qed.

(** What a call of [response] that returns has done. *)
Lemma response_returns (service : nat -> Outcome) (prompt : string)
    (just_reply : bool) (kwargs : gmap string pyval) (w w' : world) (a : answer) :
  response service prompt just_reply kwargs w = (inr a, w') ->
  exists r reply text,
    duplicate_keyword kwargs = false /\
    service (length (sent w)) = Returns (Some r) /\
    first_choice r = inr reply /\
    cost_formula (prompt_tokens (self w) + usage_prompt_tokens r)
                 (completion_tokens (self w) + usage_completion_tokens r)
                 (_rate (self w)) = inr text /\
    a = (if just_reply then Reply reply else Full r) /\
    self w' = set_messages (messages (self w) ++ [(prompt, Some reply)])
                (set_cost (CostText text) (counted r (pending prompt (self w)))) /\
    sent w' = sent w ++ [request_of prompt kwargs (self w)].
Proof.
  rewrite response_steps; simpl.
  destruct (duplicate_keyword kwargs); [discriminate|].
  destruct (service (length (sent w))) as [[r|]|msg]; try discriminate.
  destruct (cost_formula _ _ _) as [e|text] eqn:Hcost; [discriminate|].
  destruct (first_choice r) as [e|reply] eqn:Hfirst; [discriminate|].
  intros [= <- <-]. exists r, reply, text. simpl. repeat split; done.
Qed.

(** What a call of [response] that raises RemoteCallFailed has done. *)
Lemma response_fails (service : nat -> Outcome) (prompt : string)
    (just_reply : bool) (kwargs : gmap string pyval) (w w' : world) :
  response service prompt just_reply kwargs w = (inl RemoteCallFailed, w') ->
  duplicate_keyword kwargs = false /\
  service (length (sent w)) = Returns None /\
  w' = {| self := pending prompt (self w);
          sent := sent w ++ [request_of prompt kwargs (self w)] |}.
Proof.
  rewrite response_steps; simpl.
  destruct (duplicate_keyword kwargs); [discriminate|].
  destruct (service (length (sent w))) as [[r|]|msg]; try discriminate.
  - destruct (cost_formula _ _ _) as [e|text] eqn:Hcost.
    + intros [= -> _]. destruct (cost_formula_error _ _ _ _ Hcost); discriminate.
    + destruct (first_choice r) as [e|reply] eqn:Hfirst; [|discriminate].
      intros [= -> _]. discriminate (first_choice_error _ _ Hfirst).
  - intros [= <-]. done.
Qed.

(** ** Failure of the remote call *)

(** C3: [response] raises RemoteCallFailed exactly when the call to the
    service is made and returns [None]; the history then ends with the
    pending exchange, whose reply is unset, and the service has been
    called once, with no second attempt. *)
Theorem response_remote_call_failed (service : nat -> Outcome) (prompt : string)
    (just_reply : bool) (kwargs : gmap string pyval) (w : world) :
  ((response service prompt just_reply kwargs w).1 = inl RemoteCallFailed <->
   duplicate_keyword kwargs = false /\
   service (length (sent w)) = Returns None) /\
  ((response service prompt just_reply kwargs w).1 = inl RemoteCallFailed ->
   let w' := (response service prompt just_reply kwargs w).2 in
   messages (self w') = messages (self w) ++ [(prompt, None)] /\
   last (messages (self w')) = Some (prompt, None) /\
   sent w' = sent w ++ [request_of prompt kwargs (self w)]).
Proof.
  assert (Hfail : (response service prompt just_reply kwargs w).1
                  = inl RemoteCallFailed ->
                  duplicate_keyword kwargs = false /\
                  service (length (sent w)) = Returns None /\
                  (response service prompt just_reply kwargs w).2
                  = {| self := pending prompt (self w);
                       sent := sent w ++ [request_of prompt kwargs (self w)] |}).
  { destruct (response service prompt just_reply kwargs w) as [res w'] eqn:Hrun.
    simpl. intros ->. exact (response_fails _ _ _ _ _ _ Hrun). }
  split; [split|].
  - intros H. destruct (Hfail H) as (? & ? & _). done.
  - intros [Hkw Hnone]. rewrite response_steps; simpl.
    rewrite Hkw, Hnone. reflexivity.
  - intros H. destruct (Hfail H) as (_ & _ & ->). simpl.
    repeat split. apply last_snoc.
Qed.

(** C10: a call of [response] that raises RemoteCallFailed leaves both
    token counters and the cost as they were; the session differs from
    the one before the call in the appended pending exchange only. *)
Theorem failed_response_keeps_counters (service : nat -> Outcome)
    (prompt : string) (just_reply : bool) (kwargs : gmap string pyval)
    (w w' : world) :
  response service prompt just_reply kwargs w = (inl RemoteCallFailed, w') ->
  prompt_tokens (self w') = prompt_tokens (self w) /\
  completion_tokens (self w') = completion_tokens (self w) /\
  cost (self w') = cost (self w) /\
  self w' = set_messages (messages (self w) ++ [(prompt, None)]) (self w).
Proof.
  intros Hrun. destruct (response_fails _ _ _ _ _ _ Hrun) as (_ & _ & ->).
  simpl. repeat split.
Qed.

(** C5: the request that [response] hands to the service carries the
    optional leading system message, then for each exchange of the
    history, in order, its user message followed by its assistant message
    when the reply is set, then the user message of the new prompt alone;
    nothing is handed over when [kwargs] repeats a keyword. *)
Theorem response_outbound_messages (service : nat -> Outcome) (prompt : string)
    (just_reply : bool) (kwargs : gmap string pyval) (w : world) :
  sent (response service prompt just_reply kwargs w).2 =
  sent w ++
  (if duplicate_keyword kwargs then []
   else [{| req_model := _model (self w);
            req_messages :=
              leading_messages (_system (self w))
              ++ flat_map helpers.exchange_messages (messages (self w))
              ++ [{| role := user; content := prompt |}];
            req_kwargs := kwargs |}]) /\
  (forall text, leading_messages (Some text) = [{| role := system; content := text |}]) /\
  leading_messages None = [] /\
  (forall p reply, helpers.exchange_messages (p, Some reply) =
                   [{| role := user; content := p |};
                    {| role := assistant; content := reply |}]) /\
  (forall p, helpers.exchange_messages (p, None) = [{| role := user; content := p |}]).
Proof.
  split; [|repeat split].
  rewrite response_steps; simpl.
  rewrite <- compile_messages_pending.
  destruct (duplicate_keyword kwargs); simpl; [by rewrite app_nil_r|].
  destruct (service (length (sent w))) as [[r|]|msg]; try reflexivity.
  destruct (cost_formula _ _ _); [reflexivity|].
  destruct (first_choice r); reflexivity.
Qed.

(** ** Successful calls *)

(** C1 as amended: after a call of [response] that returns, the cost is
    the string that [cost_formula] computes from the two cumulative
    counters and the rate pair of the active model, hence a function of
    these three values; with 1500 prompt units, 500 completion units and
    the rates 0.03 and 0.06 that string is ["$0.07"], the double nearest
    to 0.075 being below it. *)
Theorem response_cost_formula (service : nat -> Outcome) (prompt : string)
    (just_reply : bool) (kwargs : gmap string pyval) (w w' : world) (a : answer) :
  response service prompt just_reply kwargs w = (inr a, w') ->
  (exists text,
     cost_formula (prompt_tokens (self w')) (completion_tokens (self w'))
                  (_rate (self w')) = inr text /\
     cost (self w') = CostText text) /\
  cost_formula 1500 500 (decimal_literal 3 100, decimal_literal 6 100)
  = inr "$0.07".
Proof.
  intros Hrun. split; [|vm_compute; reflexivity].
  destruct (response_returns _ _ _ _ _ _ _ Hrun)
    as (r & reply & text & _ & _ & _ & Hcost & _ & -> & _).
  exists text. simpl. split; [exact Hcost|reflexivity].
Qed.

(** A successful sequence of calls, from any session. *)
Lemma respond_all_returns (service : nat -> Outcome)
    (calls : list (string * bool * gmap string pyval)) :
  forall (w w' : world) (answers : list answer),
    respond_all service calls w = (inr answers, w') ->
    exists (completions : list ChatCompletion) (added : list Exchange),
      length completions = length calls /\
      length added = length calls /\
      (forall (i : nat) r, completions !! i = Some r ->
                           service (length (sent w) + i)%nat = Returns (Some r)) /\
      messages (self w') = messages (self w) ++ added /\
      Forall (fun exchange : Exchange => is_Some exchange.2) added /\
      prompt_tokens (self w') =
        prompt_tokens (self w) + total (usage_prompt_tokens <$> completions) /\
      completion_tokens (self w') =
        completion_tokens (self w) + total (usage_completion_tokens <$> completions) /\
      length (sent w') = (length (sent w) + length calls)%nat.
Proof.
  induction calls as [|[[prompt just_reply] kwargs] rest IH];
    intros w w' answers Hrun.
  - injection Hrun as <- <-. exists [], []. simpl.
    rewrite app_nil_r, !Z.add_0_r, Nat.add_0_r.
    repeat split; done.
  - simpl in Hrun. unfold bind at 1 in Hrun.
    destruct (response service prompt just_reply kwargs w) as [[e|a] w1] eqn:Hone;
      [discriminate|].
    unfold bind at 1 in Hrun.
    destruct (respond_all service rest w1) as [[e|others] w2] eqn:Hrest;
      [discriminate|].
    injection Hrun as <- <-.
    destruct (response_returns _ _ _ _ _ _ _ Hone)
      as (r & reply & text & _ & Hsvc & _ & _ & _ & Hself & Hsent).
    destruct (IH _ _ _ Hrest)
      as (completions & added & Hlen & Hadded & Hsvcs & Hmsgs & Hset & Hp & Hc & Hlog).
    exists (r :: completions), ((prompt, Some reply) :: added).
    rewrite Hself in Hmsgs, Hp, Hc. simpl in Hmsgs, Hp, Hc.
    rewrite Hsent, length_app in Hsvcs, Hlog. simpl in Hsvcs, Hlog.
    simpl. repeat split.
    + by rewrite Hlen.
    + by rewrite Hadded.
    + intros [|i] r' Hi; simpl in Hi.
      * injection Hi as <-. by rewrite Nat.add_0_r.
      * specialize (Hsvcs i r' Hi).
        by replace (length (sent w) + S i)%nat
          with (length (sent w) + 1 + i)%nat by lia.
    + by rewrite Hmsgs, <- app_assoc.
    + constructor; [simpl; eauto|exact Hset].
    + rewrite Hp. unfold total. simpl. by rewrite Z.add_assoc.
    + rewrite Hc. unfold total. simpl. by rewrite Z.add_assoc.
    + rewrite Hlog. lia.
Qed.

(** C2: when [N] calls of [response] on a newly constructed session all
    return, the history has exactly [N] exchanges, each with its reply
    set, and the two counters are the sums of the prompt and completion
    token counts of the [N] completions that the service returned. *)
Theorem respond_all_history (service : nat -> Outcome)
    (calls : list (string * bool * gmap string pyval))
    (model : pyval) (system_prompt : option string)
    (s : t) (w' : world) (answers : list answer) :
  construct model system_prompt = inr s ->
  respond_all service calls {| self := s; sent := [] |} = (inr answers, w') ->
  exists completions : list ChatCompletion,
    length completions = length calls /\
    (forall (i : nat) r, completions !! i = Some r -> service i = Returns (Some r)) /\
    length (messages (self w')) = length calls /\
    Forall (fun exchange : Exchange => is_Some exchange.2) (messages (self w')) /\
    prompt_tokens (self w') = total (usage_prompt_tokens <$> completions) /\
    completion_tokens (self w') = total (usage_completion_tokens <$> completions).
Proof.
  intros Hnew Hrun.
  assert (Hfresh : messages s = [] /\ prompt_tokens s = 0 /\ completion_tokens s = 0).
  { destruct (construct_returns _ _ _ Hnew) as (m & _ & ->). by simpl. }
  destruct Hfresh as (Hm & Hp & Hc).
  destruct (respond_all_returns _ _ _ _ _ Hrun)
    as (completions & added & Hlen & Hadded & Hsvcs & Hmsgs & Hset & Hp' & Hc' & _).
  simpl in *. rewrite Hm in Hmsgs. rewrite Hp in Hp'. rewrite Hc in Hc'.
  simpl in Hmsgs. exists completions. rewrite Hmsgs. repeat split; try done.
Qed.

(** ** The statements at sample sessions *)

(** The rates of the source text, as the doubles they denote. *)
Lemma rate_literals :
  value GPT4 = ("gpt-4", 0x1.eb851eb851eb8p-6, 0x1.eb851eb851eb8p-5)%float /\
  value GPT4_32K = ("gpt-4-32k", 0x1.eb851eb851eb8p-5, 0x1.eb851eb851eb8p-4)%float /\
  value GPT3_5 = ("gpt-3.5-turbo", 0x1.0624dd2f1a9fcp-9, 0x1.0624dd2f1a9fcp-9)%float.
Proof. repeat split; vm_compute; reflexivity. Qed.

Lemma gpt4_session_constructed :
  construct (PyModel GPT4) None = inr gpt4_session.
Proof. reflexivity. Qed.

(** The cost of the sample call, operation by operation: 1500 / 1000 is
    1.5 and 1.5 * 0.03 is the double 0.045; 500 / 1000 is 0.5 and
    0.5 * 0.06 is the double 0.03; their sum is the double
    5404319552844595 * 2^-56, which lies below 0.075. *)
Lemma sample_cost_steps :
  int_truediv 1500 1000 = inr 1.5%float /\
  int_truediv 500 1000 = inr 0.5%float /\
  Prim2SF (1.5 * decimal_literal 3 100 + 0.5 * decimal_literal 6 100)%float
  = S754_finite false 5404319552844595 (-56) /\
  5404319552844595 * 1000 < 75 * 2 ^ 56 /\
  hundredths 5404319552844595 (-56) = 7.
Proof. repeat split; vm_compute; reflexivity. Qed.

(** The claim C1 as the spec words it fails on the code: one call that
    brings the counters of a GPT4 session to 1500 and 500 leaves the cost
    ["$0.07"], not ["$0.08"]. *)
Lemma spec_cost_example_refuted :
  exists w',
    response sample_service "hi" true ∅ sample_world = (inr (Reply "hello"), w') /\
    prompt_tokens (self w') = 1500 /\
    completion_tokens (self w') = 500 /\
    _rate (self w') = (decimal_literal 3 100, decimal_literal 6 100) /\
    cost (self w') = CostText "$0.07" /\
    cost (self w') <> CostText "$0.08".
Proof.
  eexists. split; [vm_compute; reflexivity|].
  simpl. repeat split. discriminate.
Qed.

(** The scenario of the spec: GPT3_5, usage 10 and 5, cost ["$0.00"]. *)
Lemma small_usage_costs_nothing :
  cost_formula 10 5 (rates GPT3_5) = inr "$0.00".
Proof. vm_compute. reflexivity. Qed.

Lemma response_cost_formula_witness :
  let w' := (response sample_service "hi" true ∅ sample_world).2 in
  (exists text,
     cost_formula (prompt_tokens (self w')) (completion_tokens (self w'))
                  (_rate (self w')) = inr text /\
     cost (self w') = CostText text) /\
  cost_formula 1500 500 (decimal_literal 3 100, decimal_literal 6 100)
  = inr "$0.07".
Proof.
  apply (response_cost_formula sample_service "hi" true ∅ sample_world _
           (Reply "hello")).
  vm_compute. reflexivity.
Defined.

Lemma respond_all_history_witness :
  let w' := (respond_all sample_service sample_calls sample_world).2 in
  exists completions : list ChatCompletion,
    length completions = length sample_calls /\
    (forall (i : nat) r, completions !! i = Some r ->
                         sample_service i = Returns (Some r)) /\
    length (messages (self w')) = length sample_calls /\
    Forall (fun exchange : Exchange => is_Some exchange.2) (messages (self w')) /\
    prompt_tokens (self w') = total (usage_prompt_tokens <$> completions) /\
    completion_tokens (self w') = total (usage_completion_tokens <$> completions).
Proof.
  apply (respond_all_history sample_service sample_calls (PyModel GPT4) None
           gpt4_session _ [Reply "hello"; Full sample_completion]).
  - reflexivity.
  - vm_compute. reflexivity.
Defined.

Lemma response_remote_call_failed_witness :
  (response silent_service "hi" true ∅ sample_world).1 = inl RemoteCallFailed /\
  let w' := (response silent_service "hi" true ∅ sample_world).2 in
  messages (self w') = messages (self sample_world) ++ [("hi", None)] /\
  last (messages (self w')) = Some ("hi", None) /\
  sent w' = sent sample_world ++ [request_of "hi" ∅ (self sample_world)].
Proof.
  split.
  - apply (proj2 (proj1 (response_remote_call_failed
                           silent_service "hi" true ∅ sample_world))).
    split; reflexivity.
  - apply (proj2 (response_remote_call_failed
                    silent_service "hi" true ∅ sample_world)).
    vm_compute. reflexivity.
Defined.

Lemma failed_response_keeps_counters_witness :
  let w' := (response silent_service "more" false ∅ interrupted_world).2 in
  prompt_tokens (self w') = prompt_tokens (self interrupted_world) /\
  completion_tokens (self w') = completion_tokens (self interrupted_world) /\
  cost (self w') = cost (self interrupted_world) /\
  self w' = set_messages (messages (self interrupted_world) ++ [("more", None)])
                         (self interrupted_world).
Proof.
  apply (failed_response_keeps_counters silent_service "more" false ∅
           interrupted_world).
  vm_compute. reflexivity.
Defined.

Lemma get_messages_transcript_witness :
  exists out : list (gmap string (option string)),
    get_messages interrupted_world = (inr out, interrupted_world) /\
    length out = 4%nat /\
    out !! 2%nat = Some {[ "user" := Some "more" ]} /\
    out !! 3%nat = Some {[ "assistant" := None ]}.
Proof.
  destruct (get_messages_transcript interrupted_world) as (out & Hrun & Hlen & Hat).
  exists out. split; [exact Hrun|]. split; [exact Hlen|].
  apply (Hat 1%nat "more" None). reflexivity.
Defined.

(** ** The shape of the cost string *)

Lemma two_digits_length (n : Z) :
  0 <= n < 100 -> String.length (two_digits n) = 2%nat.
Proof.
  intros Hn.
  assert (Hall : forallb (fun k => Nat.eqb (String.length (two_digits k)) 2)
                         (seqZ 0 100) = true) by (vm_compute; reflexivity).
  rewrite forallb_forall in Hall.
  apply Nat.eqb_eq, Hall, list_elem_of_In, elem_of_seqZ. lia.
Qed.

(** A finite cost is printed as digits, a point and exactly two digits. *)
Lemma format_2f_finite (x : float) (s : bool) (m : positive) (e : Z) :
  Prim2SF x = S754_finite s m e ->
  exists h, 0 <= h /\
    format_2f x = sign_prefix s +:+ pretty (h / 100) +:+ "." +:+ two_digits (h mod 100) /\
    String.length (two_digits (h mod 100)) = 2%nat.
Proof.
  intros Hx. exists (hundredths m e). split; [|split].
  - unfold hundredths, round_half_even. destruct (0 <=? e) eqn:He.
    + apply Z.leb_le in He.
      assert (0 <= 2 ^ e) by (apply Z.pow_nonneg; lia). nia.
    + apply Z.leb_gt in He.
      assert (0 < 2 ^ (- e)) by (apply Z.pow_pos_nonneg; lia).
      assert (0 <= Z.pos m * 100 / 2 ^ (- e)) by (apply Z.div_pos; lia).
      destruct (_ ?= _); [destruct (Z.even _)| |]; lia.
  - unfold format_2f. rewrite Hx. reflexivity.
  - apply two_digits_length, Z.mod_pos_bound. lia.
Qed.

(** ** The other ways in which [response] ends *)

Lemma cost_formula_overflow (p c : Z) (rate : float * float) (e : exn) :
  cost_formula p c rate = inl e -> e = OverflowError.
Proof.
  assert (Hdiv : forall a e', int_truediv a 1000 = inl e' -> e' = OverflowError).
  { intros a e'. unfold int_truediv.
    destruct (decide (1000 = 0)) as [Hz|_]; [discriminate Hz|].
    destruct (SFdiv prec emax (Z2SF a) (Z2SF 1000)); try discriminate.
    by intros [= <-]. }
  unfold cost_formula.
  destruct (int_truediv p 1000) as [e1|a] eqn:Hp.
  - intros [= <-]. exact (Hdiv _ _ Hp).
  - destruct (int_truediv c 1000) as [e2|b] eqn:Hc; [|discriminate].
    intros [= <-]. exact (Hdiv _ _ Hc).
Qed.

Lemma first_choice_none (r : ChatCompletion) (e : exn) :
  first_choice r = inl e -> choices r = [].
Proof. unfold first_choice. by destruct (choices r). Qed.

(** Every way in which a call of [response] raises. *)
Lemma response_raises (service : nat -> Outcome) (prompt : string)
    (just_reply : bool) (kwargs : gmap string pyval) (w w' : world) (e : exn) :
  response service prompt just_reply kwargs w = (inl e, w') ->
  let log := sent w ++ [request_of prompt kwargs (self w)] in
  (duplicate_keyword kwargs = true /\ e = TypeError /\
   w' = {| self := pending prompt (self w); sent := sent w |}) \/
  (duplicate_keyword kwargs = false /\
   ((exists msg, service (length (sent w)) = Raises msg /\ e = OpenAIError msg /\
                 w' = {| self := pending prompt (self w); sent := log |}) \/
    (service (length (sent w)) = Returns None /\ e = RemoteCallFailed /\
     w' = {| self := pending prompt (self w); sent := log |}) \/
    (exists r, service (length (sent w)) = Returns (Some r) /\
               e = OverflowError /\
               cost_formula (prompt_tokens (self w) + usage_prompt_tokens r)
                            (completion_tokens (self w) + usage_completion_tokens r)
                            (_rate (self w)) = inl OverflowError /\
               w' = {| self := counted r (pending prompt (self w)); sent := log |}) \/
    (exists r text, service (length (sent w)) = Returns (Some r) /\
                    e = IndexError /\ choices r = [] /\
                    cost_formula (prompt_tokens (self w) + usage_prompt_tokens r)
                                 (completion_tokens (self w) + usage_completion_tokens r)
                                 (_rate (self w)) = inr text /\
                    w' = {| self := set_cost (CostText text)
                                      (counted r (pending prompt (self w)));
                            sent := log |}))).
Proof.
  rewrite response_steps; simpl.
  destruct (duplicate_keyword kwargs).
  { intros [= <- <-]. left. done. }
  destruct (service (length (sent w))) as [[r|]|msg].
  - destruct (cost_formula _ _ _) as [e1|text] eqn:Hcost.
    + intros [= <- <-]. right. split; [reflexivity|]. right. right. left.
      exists r. pose proof (cost_formula_overflow _ _ _ _ Hcost) as ->. done.
    + destruct (first_choice r) as [e1|reply] eqn:Hfirst; [|discriminate].
      intros [= <- <-]. right. split; [reflexivity|]. right. right. right.
      exists r, text. rewrite (first_choice_error _ _ Hfirst).
      pose proof (first_choice_none _ _ Hfirst). done.
  - intros [= <- <-]. right. split; [reflexivity|]. right. left. done.
  - intros [= <- <-]. right. split; [reflexivity|]. left. exists msg. done.
Qed.

(** X2: when [kwargs] holds [model] or [messages], [response] raises
    [TypeError] at the call of the service, whatever the service would
    have answered: the pending exchange has been appended, nothing has
    been sent, and the counters and the cost are as before. *)
Theorem response_duplicate_keyword (service : nat -> Outcome) (prompt : string)
    (just_reply : bool) (kwargs : gmap string pyval) (w : world) :
  is_Some (kwargs !! "model") \/ is_Some (kwargs !! "messages") ->
  response service prompt just_reply kwargs w =
  (inl TypeError,
   {| self := set_messages (messages (self w) ++ [(prompt, None)]) (self w);
      sent := sent w |}) /\
  prompt_tokens (self (response service prompt just_reply kwargs w).2)
  = prompt_tokens (self w) /\
  completion_tokens (self (response service prompt just_reply kwargs w).2)
  = completion_tokens (self w) /\
  cost (self (response service prompt just_reply kwargs w).2) = cost (self w).
Proof.
  intros Hkw.
  assert (Hdup : duplicate_keyword kwargs = true).
  { unfold duplicate_keyword. apply bool_decide_eq_true. exact Hkw. }
  rewrite response_steps; simpl. rewrite Hdup. simpl. done.
Qed.

Lemma response_duplicate_keyword_witness :
  response sample_service "hi" true model_kwargs used_world =
  (inl TypeError,
   {| self := set_messages (messages (self used_world) ++ [("hi", None)])
                           (self used_world);
      sent := sent used_world |}) /\
  prompt_tokens (self (response sample_service "hi" true model_kwargs used_world).2)
  = prompt_tokens (self used_world) /\
  completion_tokens (self (response sample_service "hi" true model_kwargs used_world).2)
  = completion_tokens (self used_world) /\
  cost (self (response sample_service "hi" true model_kwargs used_world).2)
  = cost (self used_world).
Proof.
  apply (response_duplicate_keyword sample_service "hi" true model_kwargs used_world).
  left. unfold model_kwargs. rewrite lookup_singleton_eq. by eexists.
Defined.

(** X3: [response] lets an error of the service through exactly when the
    call is made and raises it; the request has then been sent once, the
    pending exchange stays unanswered, and the counters and the cost are
    as before. *)
Theorem response_service_error (service : nat -> Outcome) (prompt : string)
    (just_reply : bool) (kwargs : gmap string pyval) (w : world) (msg : string) :
  ((response service prompt just_reply kwargs w).1 = inl (OpenAIError msg) <->
   duplicate_keyword kwargs = false /\ service (length (sent w)) = Raises msg) /\
  ((response service prompt just_reply kwargs w).1 = inl (OpenAIError msg) ->
   (response service prompt just_reply kwargs w).2 =
   {| self := set_messages (messages (self w) ++ [(prompt, None)]) (self w);
      sent := sent w ++ [request_of prompt kwargs (self w)] |}).
Proof.
  assert (Hinv : (response service prompt just_reply kwargs w).1 = inl (OpenAIError msg) ->
                 (duplicate_keyword kwargs = false /\
                  service (length (sent w)) = Raises msg) /\
                 (response service prompt just_reply kwargs w).2 =
                 {| self := pending prompt (self w);
                    sent := sent w ++ [request_of prompt kwargs (self w)] |}).
  { destruct (response service prompt just_reply kwargs w) as [res w'] eqn:Hrun.
    simpl. intros ->.
    destruct (response_raises _ _ _ _ _ _ _ Hrun)
      as [(_ & ? & _)|(Hkw & [(msg' & Hsvc & [= <-] & ->)|[(_ & ? & _)|[(? & _ & ? & _)|(? & ? & _ & ? & _)]]])];
      done. }
  split; [split|].
  - intros H. apply Hinv, H.
  - intros [Hkw Hsvc]. rewrite response_steps; simpl. by rewrite Hkw, Hsvc.
  - intros H. apply Hinv, H.
Qed.

Lemma response_service_error_witness :
  (response failing_service "hi" true ∅ sample_world).1
  = inl (OpenAIError "rate limit") /\
  (response failing_service "hi" true ∅ sample_world).2 =
  {| self := set_messages (messages (self sample_world) ++ [("hi", None)])
                          (self sample_world);
     sent := sent sample_world ++ [request_of "hi" ∅ (self sample_world)] |}.
Proof.
  assert (H : (response failing_service "hi" true ∅ sample_world).1
              = inl (OpenAIError "rate limit")).
  { apply (proj2 (proj1 (response_service_error
                           failing_service "hi" true ∅ sample_world "rate limit"))).
    split; reflexivity. }
  split; [exact H|].
  exact (proj2 (response_service_error
                  failing_service "hi" true ∅ sample_world "rate limit") H).
Defined.

(** ** The range of the division by 1000 *)

(** The number of binary digits, and what a right shift does to it. *)
Lemma digits2_pos_size (p : positive) : digits2_pos p = Pos.size p.
Proof. induction p; simpl; congruence. Qed.

Lemma Zdigits2_nonneg (m : Z) : 0 <= Zdigits2 m.
Proof. destruct m; simpl; lia. Qed.

Lemma Zdigits2_bound (m k : Z) : 0 <= k -> 0 <= m < 2 ^ k -> Zdigits2 m <= k.
Proof.
  intros Hk [Hm Hlt]. destruct m as [|p|p]; simpl; [lia| |lia].
  rewrite digits2_pos_size.
  destruct (Z_le_gt_dec (Z.pos (Pos.size p)) k) as [|Hgt]; [assumption|exfalso].
  pose proof (Pos.size_le p) as Hle.
  assert (H2 : 2 ^ (k + 1) <= 2 ^ Z.pos (Pos.size p)) by (apply Z.pow_le_mono_r; lia).
  rewrite Z.pow_add_r in H2 by lia.
  assert (Z.pos (2 ^ Pos.size p) <= Z.pos p~0) by exact Hle.
  rewrite Pos2Z.inj_pow in H. lia.
Qed.

Lemma Zdigits2_gt (m : Z) : 0 <= m -> m < 2 ^ Zdigits2 m.
Proof.
  intros Hm. destruct m as [|p|p]; simpl; [lia| |lia].
  rewrite digits2_pos_size. pose proof (Pos.size_gt p) as H.
  assert (Z.pos p < Z.pos (2 ^ Pos.size p)) by exact H.
  rewrite Pos2Z.inj_pow in H0. exact H0.
Qed.

Lemma Zdigits2_le (m n : Z) : 0 <= m <= n -> Zdigits2 m <= Zdigits2 n.
Proof.
  intros [Hm Hn]. apply Zdigits2_bound; [apply Zdigits2_nonneg|].
  split; [assumption|]. pose proof (Zdigits2_gt n ltac:(lia)). lia.
Qed.

Lemma shr_1_m (mrs : shr_record) : 0 <= shr_m mrs -> 0 <= shr_m (shr_1 mrs) <= shr_m mrs.
Proof. destruct mrs as [[|[p|p|]|p] r s]; simpl; lia. Qed.

Lemma iter_shr_1_m (p : positive) : forall mrs, 0 <= shr_m mrs ->
  0 <= shr_m (SpecFloat.iter_pos shr_1 p mrs) <= shr_m mrs.
Proof.
  induction p as [p IH|p IH|]; intros mrs Hm; simpl.
  - pose proof (shr_1_m mrs Hm). pose proof (IH (shr_1 mrs) ltac:(lia)).
    pose proof (IH _ (proj1 H0)). lia.
  - pose proof (IH mrs Hm). pose proof (IH _ (proj1 H)). lia.
  - apply shr_1_m, Hm.
Qed.

Lemma shr_1_div2 (mrs : shr_record) : 0 <= shr_m mrs -> shr_m (shr_1 mrs) = shr_m mrs / 2.
Proof.
  destruct mrs as [[|[p|p|]|p] r s]; simpl; intros Hm; try reflexivity; try lia.
  - rewrite Pos2Z.inj_xI. apply Z.div_unique with 1; lia.
  - rewrite Pos2Z.inj_xO. apply Z.div_unique with 0; lia.
Qed.

Lemma iter_shr_1_div (p : positive) : forall mrs, 0 <= shr_m mrs ->
  shr_m (SpecFloat.iter_pos shr_1 p mrs) = shr_m mrs / 2 ^ Z.pos p.
Proof.
  induction p as [p IH|p IH|]; intros mrs Hm; simpl SpecFloat.iter_pos.
  - pose proof (shr_1_m mrs Hm) as H1.
    pose proof (iter_shr_1_m p (shr_1 mrs) (proj1 H1)) as H2.
    assert (0 < 2 ^ Z.pos p) by (apply Z.pow_pos_nonneg; lia).
    rewrite IH, IH, shr_1_div2 by lia.
    rewrite !Z.div_div by lia. f_equal.
    replace (Z.pos p~1) with (1 + Z.pos p + Z.pos p) by lia.
    rewrite !Z.pow_add_r by lia. rewrite Z.pow_1_r. ring.
  - pose proof (iter_shr_1_m p mrs Hm) as H2.
    assert (0 < 2 ^ Z.pos p) by (apply Z.pow_pos_nonneg; lia).
    rewrite IH, IH by lia.
    rewrite Z.div_div by lia. f_equal.
    replace (Z.pos p~0) with (Z.pos p + Z.pos p) by lia.
    rewrite Z.pow_add_r by lia. ring.
  - rewrite shr_1_div2 by exact Hm. reflexivity.
Qed.

Lemma Zdigits2_div_pow (m n : Z) :
  0 <= m -> 0 <= n -> Zdigits2 (m / 2 ^ n) <= Z.max (Zdigits2 m - n) 0.
Proof.
  intros Hm Hn. pose proof (Zdigits2_gt m Hm) as Hlt.
  pose proof (Zdigits2_nonneg m) as Hd.
  assert (Hpos : 0 < 2 ^ n) by (apply Z.pow_pos_nonneg; lia).
  destruct (Z_le_gt_dec n (Zdigits2 m)) as [Hle|Hgt].
  - apply Zdigits2_bound; [lia|]. split; [apply Z.div_pos; lia|].
    apply Z.div_lt_upper_bound; [lia|].
    rewrite Z.max_l by lia. rewrite <- Z.pow_add_r by lia.
    replace (n + (Zdigits2 m - n)) with (Zdigits2 m) by lia. exact Hlt.
  - rewrite Z.div_small; [simpl; lia|]. split; [lia|].
    apply Z.lt_le_trans with (2 ^ Zdigits2 m); [exact Hlt|].
    apply Z.pow_le_mono_r; lia.
Qed.

Lemma shr_bound (mrs mrs' : shr_record) (e n e' : Z) :
  0 <= shr_m mrs -> shr mrs e n = (mrs', e') ->
  e' = Z.max e (e + n) /\ 0 <= shr_m mrs' /\
  Zdigits2 (shr_m mrs') + e' <= Z.max (Zdigits2 (shr_m mrs) + e) e'.
Proof.
  intros Hm. unfold shr. destruct n as [|p|p]; intros [= <- <-].
  - split; [lia|]. split; [exact Hm|lia].
  - split; [lia|]. split; [apply iter_shr_1_m, Hm|].
    rewrite iter_shr_1_div by exact Hm.
    pose proof (Zdigits2_div_pow (shr_m mrs) (Z.pos p) Hm ltac:(lia)). lia.
  - split; [lia|]. split; [exact Hm|lia].
Qed.

Lemma shr_record_of_loc_m (m : Z) (l : location) : shr_m (shr_record_of_loc m l) = m.
Proof. destruct l as [|[]]; reflexivity. Qed.

Lemma round_nearest_even_bound (m : Z) (l : location) :
  0 <= m -> 0 <= round_nearest_even m l <= m + 1.
Proof. intros Hm. destruct l as [|[]]; simpl; try lia. destruct (Z.even m); lia. Qed.

Lemma Zdigits2_succ (m n : Z) : 0 <= n <= m + 1 -> 0 <= m -> Zdigits2 n <= Zdigits2 m + 1.
Proof.
  intros Hn Hm. pose proof (Zdigits2_nonneg m). pose proof (Zdigits2_gt m Hm).
  apply Zdigits2_bound; [lia|]. rewrite Z.pow_add_r by lia. lia.
Qed.

Lemma binary_round_aux_finite (s : bool) (mx ex : Z) (lx : location) :
  0 <= mx -> ex <= 900 -> Zdigits2 mx + ex <= 1000 ->
  is_infinite (binary_round_aux prec emax s mx ex lx) = false.
Proof.
  intros Hm Hex Ht. unfold binary_round_aux, shr_fexp.
  destruct (shr (shr_record_of_loc mx lx) ex _) as [mrs1 e1] eqn:H1.
  apply shr_bound in H1; [|rewrite shr_record_of_loc_m; exact Hm].
  rewrite shr_record_of_loc_m in H1. destruct H1 as (He1 & Hm1 & Hd1).
  pose proof (round_nearest_even_bound (shr_m mrs1) (loc_of_shr_record mrs1) Hm1) as Hr.
  set (m1 := round_nearest_even (shr_m mrs1) (loc_of_shr_record mrs1)) in *.
  pose proof (Zdigits2_succ (shr_m mrs1) m1 Hr Hm1) as Hd.
  destruct (shr (shr_record_of_loc m1 loc_Exact) e1 _) as [mrs2 e2] eqn:H2.
  apply shr_bound in H2; [|simpl; lia]. simpl shr_m in H2 at 1 2.
  destruct H2 as (He2 & Hm2 & _).
  unfold fexp, SpecFloat.emin, prec, emax in *.
  destruct (shr_m mrs2); try reflexivity.
  replace (e2 <=? 1024 - 53) with true; [reflexivity|].
  symmetry. apply Z.leb_le. lia.
Qed.

Lemma SFdiv_core_binary_bound (m1 m2 : positive) (mz ez : Z) (lz : location) :
  Z.pos m1 < 2 ^ 1000 ->
  SFdiv_core_binary prec emax (Z.pos m1) 0 (Z.pos m2) 0 = (mz, ez, lz) ->
  0 <= mz /\ ez <= 900 /\ Zdigits2 mz + ez <= 1000.
Proof.
  intros Hm1. unfold SFdiv_core_binary.
  set (e' := Z.min _ _).
  assert (He' : e' <= 0) by (subst e'; lia).
  set (m' := match 0 - 0 - e' with Z.pos _ => _ | Z0 => _ | Z.neg _ => _ end).
  assert (Hm' : m' = Z.pos m1 * 2 ^ (- e')).
  { subst m'. replace (0 - 0 - e') with (- e') by lia.
    destruct (- e') as [|p|p] eqn:Hs; [simpl; lia| |lia].
    rewrite Z.shiftl_mul_pow2 by lia. reflexivity. }
  clearbody m' e'.
  destruct (Z.div_eucl m' (Z.pos m2)) as [q r] eqn:Hdiv.
  intros [= <- <- <-].
  assert (Hq : q = m' / Z.pos m2) by (unfold Z.div; rewrite Hdiv; reflexivity).
  assert (Hpow : 0 < 2 ^ (- e')) by (apply Z.pow_pos_nonneg; lia).
  assert (Hm'0 : 0 <= m') by nia.
  assert (Hq0 : 0 <= q) by (subst q; apply Z.div_pos; lia).
  assert (Hqle : q <= m').
  { subst q. apply Z.div_le_upper_bound; [lia|]. nia. }
  split; [exact Hq0|]. split; [lia|].
  assert (Zdigits2 q <= 1000 - e'); [|lia].
  apply Zdigits2_bound; [lia|]. split; [exact Hq0|].
  apply Z.le_lt_trans with m'; [exact Hqle|].
  rewrite Hm'. replace (1000 - e') with (1000 + - e') by lia.
  rewrite Z.pow_add_r by lia. nia.
Qed.

Lemma SFdiv_int_finite (a b : Z) :
  Z.abs a < 2 ^ 1000 ->
  b <> 0 -> is_infinite (SFdiv prec emax (Z2SF a) (Z2SF b)) = false.
Proof.
  intros Ha Hb.
  destruct a as [|p|p], b as [|q|q]; try reflexivity; try (exfalso; apply Hb; reflexivity).
  all: unfold Z2SF, SFdiv.
  all: destruct (SFdiv_core_binary prec emax (Z.pos p) 0 (Z.pos q) 0)
         as [[mz ez] lz] eqn:Hcore.
  all: apply SFdiv_core_binary_bound in Hcore; [|exact Ha].
  all: destruct Hcore as (H1 & H2 & H3).
  all: apply binary_round_aux_finite; assumption.
Qed.

Lemma int_truediv_returns (a b : Z) :
  Z.abs a < 2 ^ 1000 -> b <> 0 -> exists q, int_truediv a b = inr q.
Proof.
  intros Ha Hb. unfold int_truediv.
  destruct (decide (b = 0)) as [Hz|_]; [contradiction|].
  pose proof (SFdiv_int_finite a b Ha Hb) as Hfin.
  destruct (SFdiv prec emax (Z2SF a) (Z2SF b)); try discriminate Hfin; by eexists.
Qed.

(** X9: dividing an [int] of magnitude below [2^1000] by a non-zero
    [int] returns a double, and dividing by zero raises
    [ZeroDivisionError]; [OverflowError] needs a larger dividend. *)
Theorem int_truediv_in_range (a b : Z) :
  (b = 0 -> int_truediv a b = inl ZeroDivisionError) /\
  (Z.abs a < 2 ^ 1000 -> b <> 0 -> exists q, int_truediv a b = inr q) /\
  (int_truediv a b = inl OverflowError -> 2 ^ 1000 <= Z.abs a).
Proof.
  split; [|split].
  - intros ->. reflexivity.
  - apply int_truediv_returns.
  - intros Hover. destruct (Z_lt_le_dec (Z.abs a) (2 ^ 1000)) as [Hlt|Hge]; [|exact Hge].
    destruct (decide (b = 0)) as [->|Hb]; [discriminate Hover|].
    destruct (int_truediv_returns a b Hlt Hb) as [q Hq].
    rewrite Hq in Hover. discriminate Hover.
Qed.

Lemma int_truediv_in_range_witness :
  int_truediv 5 0 = inl ZeroDivisionError /\
  (exists q, int_truediv 123456789 1000 = inr q) /\
  2 ^ 1000 <= Z.abs (2 ^ 1100).
Proof.
  split; [|split].
  - apply (proj1 (int_truediv_in_range 5 0)). reflexivity.
  - apply (proj1 (proj2 (int_truediv_in_range 123456789 1000)));
      [vm_compute; reflexivity|discriminate].
  - apply (proj2 (proj2 (int_truediv_in_range (2 ^ 1100) 1000))).
    vm_compute. reflexivity.
Defined.

Lemma cost_formula_in_range (p c : Z) (rate : float * float) :
  Z.abs p < 2 ^ 1000 -> Z.abs c < 2 ^ 1000 ->
  exists text, cost_formula p c rate = inr text.
Proof.
  intros Hp Hc. unfold cost_formula.
  assert (H1000 : 1000 <> 0) by discriminate.
  destruct (int_truediv_returns p 1000 Hp H1000) as [a ->].
  destruct (int_truediv_returns c 1000 Hc H1000) as [b ->].
  by eexists.
Qed.

(** ** What a call of [response] changes *)

(** The effect of one call, whatever its outcome. *)
Lemma response_effect (service : nat -> Outcome) (prompt : string)
    (just_reply : bool) (kwargs : gmap string pyval) (w : world) :
  exists reply : option string,
    messages (self (response service prompt just_reply kwargs w).2)
    = messages (self w) ++ [(prompt, reply)] /\
    _model (self (response service prompt just_reply kwargs w).2) = _model (self w) /\
    _rate (self (response service prompt just_reply kwargs w).2) = _rate (self w) /\
    _system (self (response service prompt just_reply kwargs w).2) = _system (self w) /\
    (sent (response service prompt just_reply kwargs w).2 = sent w \/
     sent (response service prompt just_reply kwargs w).2
     = sent w ++ [request_of prompt kwargs (self w)]) /\
    (is_Some reply <->
     exists a, (response service prompt just_reply kwargs w).1 = inr a) /\
    ((prompt_tokens (self (response service prompt just_reply kwargs w).2)
      = prompt_tokens (self w) /\
      completion_tokens (self (response service prompt just_reply kwargs w).2)
      = completion_tokens (self w)) \/
     (exists r, service (length (sent w)) = Returns (Some r) /\
        prompt_tokens (self (response service prompt just_reply kwargs w).2)
        = prompt_tokens (self w) + usage_prompt_tokens r /\
        completion_tokens (self (response service prompt just_reply kwargs w).2)
        = completion_tokens (self w) + usage_completion_tokens r)).
Proof.
  destruct (response service prompt just_reply kwargs w) as [[e|a] w'] eqn:Hrun.
  - exists None.
    assert (Hnone : is_Some (@None string) <-> exists a, @inl exn answer e = inr a).
    { split; [intros [? ?]; discriminate|intros [? ?]; discriminate]. }
    destruct (response_raises _ _ _ _ _ _ _ Hrun)
      as [(_ & _ & ->)|(_ & [(msg & _ & _ & ->)|[(_ & _ & ->)|[(r & Hsvc & _ & _ & ->)|(r & text & Hsvc & _ & _ & _ & ->)]]])];
      simpl; repeat split; try (apply Hnone); try (by left); try (by right);
      try (intros ?; apply Hnone; assumption);
      right; exists r; done.
  - destruct (response_returns _ _ _ _ _ _ _ Hrun)
      as (r & reply & text & _ & Hsvc & _ & _ & _ & Hself & Hsent).
    exists (Some reply). simpl. rewrite Hself, Hsent. simpl.
    repeat split; try (by right); try (by eexists).
    right. exists r. done.
Qed.

(** X1: whatever its outcome, a call of [response] appends exactly one
    exchange, with the given prompt, to the history and leaves every older
    exchange, the model identifier, the rate pair and the system prompt as
    they were; the reply of the new exchange is set exactly when the call
    returns, and at most one request goes to the service. *)
Theorem response_appends_one_exchange (service : nat -> Outcome) (prompt : string)
    (just_reply : bool) (kwargs : gmap string pyval) (w : world) :
  exists reply : option string,
    messages (self (response service prompt just_reply kwargs w).2)
    = messages (self w) ++ [(prompt, reply)] /\
    (is_Some reply <->
     exists a, (response service prompt just_reply kwargs w).1 = inr a) /\
    _model (self (response service prompt just_reply kwargs w).2) = _model (self w) /\
    _rate (self (response service prompt just_reply kwargs w).2) = _rate (self w) /\
    _system (self (response service prompt just_reply kwargs w).2) = _system (self w) /\
    (length (sent (response service prompt just_reply kwargs w).2)
     <= length (sent w) + 1)%nat.
Proof.
  destruct (response_effect service prompt just_reply kwargs w)
    as (reply & Hmsgs & Hmodel & Hrate & Hsys & Hsent & Hset & _).
  exists reply. repeat split; try done; try apply Hset.
  destruct Hsent as [-> | ->]; [lia|]. rewrite length_app. simpl. lia.
Qed.

Lemma response_appends_one_exchange_witness :
  messages (self (response mixed_service "more" true ∅
                    {| self := gpt4_session; sent := [request_of "hi" ∅ gpt4_session] |}).2)
  = [("more", None)].
Proof.
  destruct (response_appends_one_exchange mixed_service "more" true ∅
              {| self := gpt4_session; sent := [request_of "hi" ∅ gpt4_session] |})
    as (reply & Hmsgs & Hset & _).
  rewrite Hmsgs. simpl. f_equal. f_equal.
  destruct reply as [text|]; [|reflexivity].
  destruct (proj1 Hset (ex_intro _ text eq_refl)) as [a Ha].
  vm_compute in Ha. discriminate Ha.
Defined.





(** X7: a call of [response] that returns gives back the content of the
    first choice of the completion when [just_reply] is true and the whole
    completion otherwise; in both cases the first choice has become the
    reply of the last exchange, and the other choices are not used. *)
Theorem response_return_value (service : nat -> Outcome) (prompt : string)
    (just_reply : bool) (kwargs : gmap string pyval) (w w' : world) (a : answer) :
  response service prompt just_reply kwargs w = (inr a, w') ->
  exists r reply,
    service (length (sent w)) = Returns (Some r) /\
    head (choices r) = Some reply /\
    a = (if just_reply then Reply reply else Full r) /\
    last (messages (self w')) = Some (prompt, Some reply).
Proof.
  intros Hrun.
  destruct (response_returns _ _ _ _ _ _ _ Hrun)
    as (r & reply & text & _ & Hsvc & Hfirst & _ & Ha & Hself & _).
  exists r, reply. rewrite Hself. simpl. repeat split; try done.
  - unfold first_choice in Hfirst. destruct (choices r); [discriminate|].
    by injection Hfirst as ->.
  - apply last_snoc.
Qed.

Lemma response_return_value_witness :
  exists r reply,
    sample_service (length (sent sample_world)) = Returns (Some r) /\
    head (choices r) = Some reply /\
    Full sample_completion = (if false then Reply reply else Full r) /\
    last (messages (self (response sample_service "hi" false ∅ sample_world).2))
    = Some ("hi", Some reply).
Proof.
  apply (response_return_value sample_service "hi" false ∅ sample_world).
  vm_compute. reflexivity.
Defined.

(** X8: [response] returns whenever [kwargs] repeats no keyword, the
    service returns a completion with at least one choice, and the two
    counters with its usage added stay below [2^1000] in magnitude. *)
Theorem response_succeeds (service : nat -> Outcome) (prompt : string)
    (just_reply : bool) (kwargs : gmap string pyval) (w : world)
    (r : ChatCompletion) (reply : string) (others : list string) :
  kwargs !! "model" = None -> kwargs !! "messages" = None ->
  service (length (sent w)) = Returns (Some r) ->
  choices r = reply :: others ->
  Z.abs (prompt_tokens (self w) + usage_prompt_tokens r) < 2 ^ 1000 ->
  Z.abs (completion_tokens (self w) + usage_completion_tokens r) < 2 ^ 1000 ->
  (response service prompt just_reply kwargs w).1
  = inr (if just_reply then Reply reply else Full r).
Proof.
  intros Hmodel Hmsgs Hsvc Hchoices Hp Hc.
  rewrite response_steps; simpl.
  assert (Hkw : duplicate_keyword kwargs = false).
  { unfold duplicate_keyword. apply bool_decide_eq_false.
    rewrite Hmodel, Hmsgs. intros [[? ?]|[? ?]]; discriminate. }
  rewrite Hkw, Hsvc.
  destruct (cost_formula_in_range _ _ (_rate (self w)) Hp Hc) as [text ->].
  unfold first_choice. rewrite Hchoices. reflexivity.
Qed.

Lemma response_succeeds_witness :
  (response sample_service "hi" true ∅ interrupted_world).1 = inr (Reply "hello").
Proof.
  apply (response_succeeds sample_service "hi" true ∅ interrupted_world
           sample_completion "hello" []);
    try reflexivity; vm_compute; reflexivity.
Defined.

(** X10: after [change_model] with a member [m], a call of [response]
    that returns has sent its request under the identifier of [m] and has
    computed the cost with the rates of [m] from the whole of both
    counters, the tokens counted under the previous model included. *)
Theorem response_after_change_model (service : nat -> Outcome) (m : Model)
    (prompt : string) (just_reply : bool) (kwargs : gmap string pyval)
    (w w' : world) (a : answer) :
  response service prompt just_reply kwargs (change_model (PyModel m) w).2
  = (inr a, w') ->
  exists r text request,
    service (length (sent w)) = Returns (Some r) /\
    last (sent w') = Some request /\
    req_model request = (value m).1.1 /\
    cost_formula (prompt_tokens (self w) + usage_prompt_tokens r)
                 (completion_tokens (self w) + usage_completion_tokens r)
                 ((value m).1.2, (value m).2) = inr text /\
    cost (self w') = CostText text.
Proof.
  rewrite change_model_valid. simpl. intros Hrun.
  destruct (response_returns _ _ _ _ _ _ _ Hrun)
    as (r & reply & text & _ & Hsvc & _ & Hcost & _ & Hself & Hsent).
  simpl in *. exists r, text. eexists.
  rewrite Hsent, Hself, last_snoc. simpl. repeat split; done.
Qed.

Lemma response_after_change_model_witness :
  exists r text request,
    sample_service (length (sent interrupted_world)) = Returns (Some r) /\
    last (sent (response sample_service "hi" true ∅
                  (change_model (PyModel GPT3_5) interrupted_world).2).2)
    = Some request /\
    req_model request = (value GPT3_5).1.1 /\
    cost_formula (prompt_tokens (self interrupted_world) + usage_prompt_tokens r)
                 (completion_tokens (self interrupted_world) + usage_completion_tokens r)
                 ((value GPT3_5).1.2, (value GPT3_5).2) = inr text /\
    cost (self (response sample_service "hi" true ∅
                  (change_model (PyModel GPT3_5) interrupted_world).2).2)
    = CostText text.
Proof.
  apply (response_after_change_model sample_service GPT3_5 "hi" true ∅
           interrupted_world _ (Reply "hello")).
  vm_compute. reflexivity.
Defined.

(** ** The transcript along a conversation *)

Lemma get_messages_flat (w : world) :
  get_messages w = (inr (flat_map transcript_entries (messages (self w))), w).
Proof.
  unfold get_messages, bind, get, ret. rewrite transcript_loop. reflexivity.
Qed.

(** X11: after a call of [response] the transcript is the transcript
    from before the call followed by two entries: the user entry of the
    prompt and an assistant entry.  When the call returned, the assistant
    entry holds the content of the first choice of the completion that the
    service returned to this call; when the call raised, it holds
    [None]. *)
Theorem transcript_after_response (service : nat -> Outcome) (prompt : string)
    (just_reply : bool) (kwargs : gmap string pyval) (w : world) :
  exists out : list (gmap string (option string)),
    (get_messages w).1 = inr out /\
    (forall a, (response service prompt just_reply kwargs w).1 = inr a ->
       exists r text,
         service (length (sent w)) = Returns (Some r) /\
         head (choices r) = Some text /\
         (get_messages (response service prompt just_reply kwargs w).2).1
         = inr (out ++ [ {[ "user" := Some prompt ]};
                         {[ "assistant" := Some text ]} ])) /\
    (forall e, (response service prompt just_reply kwargs w).1 = inl e ->
       (get_messages (response service prompt just_reply kwargs w).2).1
       = inr (out ++ [ {[ "user" := Some prompt ]}; {[ "assistant" := None ]} ])).
Proof.
  eexists. rewrite !get_messages_flat. split; [reflexivity|].
  destruct (response service prompt just_reply kwargs w) as [res w'] eqn:Hrun.
  simpl. split.
  - intros a ->.
    destruct (response_returns _ _ _ _ _ _ _ Hrun)
      as (r & reply & text & _ & Hsvc & Hfirst & _ & _ & Hself & _).
    exists r, reply. split; [exact Hsvc|]. split.
    + unfold first_choice in Hfirst. destruct (choices r); [discriminate|].
      by injection Hfirst as ->.
    + rewrite Hself. simpl. by rewrite flat_map_app.
  - intros e ->.
    assert (Hmsgs : messages (self w') = messages (self w) ++ [(prompt, None)]).
    { destruct (response_raises _ _ _ _ _ _ _ Hrun)
        as [(_ & _ & ->)|(_ & [(msg & _ & _ & ->)|[(_ & _ & ->)|[(r & _ & _ & _ & ->)|(r & text & _ & _ & _ & _ & ->)]]])];
        reflexivity. }
    rewrite Hmsgs. by rewrite flat_map_app.
Qed.

Lemma transcript_after_response_witness :
  exists out : list (gmap string (option string)),
    (get_messages used_world).1 = inr out /\
    (exists r text,
       sample_service (length (sent used_world)) = Returns (Some r) /\
       head (choices r) = Some text /\
       (get_messages (response sample_service "again" true ∅ used_world).2).1
       = inr (out ++ [ {[ "user" := Some "again" ]};
                       {[ "assistant" := Some text ]} ])) /\
    (get_messages (response silent_service "again" true ∅ used_world).2).1
    = inr (out ++ [ {[ "user" := Some "again" ]}; {[ "assistant" := None ]} ]).
Proof.
  destruct (transcript_after_response sample_service "again" true ∅ used_world)
    as (out & Hout & Hret & _).
  destruct (transcript_after_response silent_service "again" true ∅ used_world)
    as (out' & Hout' & _ & Hraise).
  assert (Hsame : out' = out) by congruence. subst out'.
  exists out. split; [exact Hout|]. split.
  - apply (Hret (Reply "hello")). vm_compute. reflexivity.
  - apply (Hraise RemoteCallFailed). vm_compute. reflexivity.
Defined.

(** ** Invariants along any use of a session *)

Lemma perform_all_cons (service : nat -> Outcome) (c : method_call)
    (calls : list method_call) (w : world) :
  perform_all service (c :: calls) w
  = perform_all service calls (perform service c w).
Proof. reflexivity. Qed.

(** A relation between worlds that every method call respects holds
    along every sequence of method calls. *)
Lemma perform_all_respects (service : nat -> Outcome) (R : world -> world -> Prop) :
  (forall w, R w w) ->
  (forall w1 w2 w3, R w1 w2 -> R w2 w3 -> R w1 w3) ->
  (forall c w, R w (perform service c w)) ->
  forall calls w, R w (perform_all service calls w).
Proof.
  intros Hrefl Htrans Hstep calls.
  induction calls as [|c calls IH]; intros w.
  - apply Hrefl.
  - rewrite perform_all_cons. eapply Htrans; [apply Hstep|apply IH].
Qed.

Lemma change_model_effect (model : pyval) (w : world) :
  (change_model model w).2 = w \/
  exists m, model = PyModel m /\
            (change_model model w).2
            = {| self := set_rate (rates m) (set_model (value m).1.1 (self w));
                 sent := sent w |}.
Proof.
  destruct (isinstance_Model model) eqn:Hv.
  - destruct model; try discriminate Hv. right. by eexists.
  - left. by rewrite change_model_invalid.
Qed.

Lemma value_identifier_inj (m1 m2 : Model) :
  (value m1).1.1 = (value m2).1.1 -> m1 = m2.
Proof. destruct m1, m2; simpl; intros H; try reflexivity; discriminate H. Qed.

(** X12: in a session that the constructor returned, after any method
    calls, returning or raising, the identifier and the rate pair are
    those of one and the same member of [Model], the only member with
    that identifier, and the system prompt is the one given to the
    constructor. *)
Theorem session_model_consistent (service : nat -> Outcome)
    (model : pyval) (system_prompt : option string) (s : t)
    (log : list Request) (calls : list method_call) :
  construct model system_prompt = inr s ->
  exists m,
    _model (self (perform_all service calls {| self := s; sent := log |}))
    = (value m).1.1 /\
    _rate (self (perform_all service calls {| self := s; sent := log |}))
    = ((value m).1.2, (value m).2) /\
    (forall m', _model (self (perform_all service calls {| self := s; sent := log |}))
                = (value m').1.1 -> m' = m) /\
    _system (self (perform_all service calls {| self := s; sent := log |}))
    = system_prompt.
Proof.
  intros Hnew. destruct (construct_returns _ _ _ Hnew) as (m0 & _ & Hs).
  pose (R := fun w1 w2 : world =>
               (exists m, _model (self w1) = (value m).1.1 /\ _rate (self w1) = rates m) ->
               (exists m, _model (self w2) = (value m).1.1 /\ _rate (self w2) = rates m) /\
               _system (self w2) = _system (self w1)).
  assert (HR : R {| self := s; sent := log |}
                 (perform_all service calls {| self := s; sent := log |})).
  { apply perform_all_respects; unfold R.
    - intros w H. done.
    - intros w1 w2 w3 H12 H23 H1. destruct (H12 H1) as [H2 Hsys2].
      destruct (H23 H2) as [H3 Hsys3]. split; [exact H3|congruence].
    - intros [model' | prompt just_reply kwargs | ] w H; simpl.
      + destruct (change_model_effect model' w) as [-> | (m & _ & ->)]; [done|].
        simpl. split; [by exists m|reflexivity].
      + destruct (response_effect service prompt just_reply kwargs w)
          as (_ & _ & -> & -> & -> & _). done.
      + try rewrite get_messages_flat. done. }
  destruct HR as [(m & Hid & Hrate) Hsys].
  { exists m0. rewrite Hs. done. }
  exists m. repeat split; try done.
  - intros m' Hm'. apply value_identifier_inj. congruence.
  - rewrite Hsys, Hs. reflexivity.
Qed.

Lemma session_model_consistent_witness :
  exists m,
    _model (self (perform_all mixed_service mixed_calls sample_world))
    = (value m).1.1 /\
    _rate (self (perform_all mixed_service mixed_calls sample_world))
    = ((value m).1.2, (value m).2) /\
    (forall m', _model (self (perform_all mixed_service mixed_calls sample_world))
                = (value m').1.1 -> m' = m) /\
    _system (self (perform_all mixed_service mixed_calls sample_world)) = None.
Proof.
  apply (session_model_consistent mixed_service (PyModel GPT4) None gpt4_session
           [] mixed_calls).
  reflexivity.
Defined.

(** X13: along any method calls, returning or raising, the history
    only grows at its end: the exchanges from before are kept as they
    were, unanswered ones included, one exchange is appended per call of
    [response], in call order and with the prompt of the call, and
    the requests sent grow likewise, by at most one per such call. *)
Theorem history_is_append_only (service : nat -> Outcome)
    (calls : list method_call) (w : world) :
  exists (added : list Exchange) (requests : list Request),
    messages (self (perform_all service calls w)) = messages (self w) ++ added /\
    added.*1 = prompts_of calls /\
    sent (perform_all service calls w) = sent w ++ requests /\
    (length requests <= length (prompts_of calls))%nat.
Proof.
  revert w. induction calls as [|c calls IH]; intros w.
  - exists [], []. simpl. by rewrite !app_nil_r.
  - rewrite perform_all_cons.
    destruct (IH (perform service c w)) as (added & requests & Hm & Hp & Hs & Hl).
    rewrite Hm, Hs. destruct c as [model | prompt just_reply kwargs | ]; simpl.
    + exists added, requests.
      destruct (change_model_effect model w) as [-> | (m & _ & ->)]; done.
    + destruct (response_effect service prompt just_reply kwargs w)
        as (reply & -> & _ & _ & _ & Hsent & _).
      unfold prompts_of in *.
      destruct Hsent as [-> | ->].
      * exists ((prompt, reply) :: added), requests.
        split; [by rewrite <- app_assoc|].
        split; [simpl; f_equal; exact Hp|].
        split; [done|]. simpl. lia.
      * exists ((prompt, reply) :: added),
               (request_of prompt kwargs (self w) :: requests).
        split; [by rewrite <- app_assoc|].
        split; [simpl; f_equal; exact Hp|].
        split; [by rewrite <- app_assoc|]. simpl. lia.
    + exists added, requests. try rewrite get_messages_flat. done.
Qed.

(** X14: if the service never reports a negative token count, neither
    counter ever decreases, whatever the method calls and their outcomes. *)
Theorem counters_never_decrease (service : nat -> Outcome)
    (calls : list method_call) (w : world) :
  (forall n r, service n = Returns (Some r) ->
               0 <= usage_prompt_tokens r /\ 0 <= usage_completion_tokens r) ->
  prompt_tokens (self w) <= prompt_tokens (self (perform_all service calls w)) /\
  completion_tokens (self w) <= completion_tokens (self (perform_all service calls w)).
Proof.
  intros Husage.
  apply (perform_all_respects service
           (fun w1 w2 => prompt_tokens (self w1) <= prompt_tokens (self w2) /\
                         completion_tokens (self w1) <= completion_tokens (self w2))).
  - intros w0. lia.
  - intros w1 w2 w3 [? ?] [? ?]. lia.
  - intros [model | prompt just_reply kwargs | ] w0; simpl.
    + destruct (change_model_effect model w0) as [-> | (m & _ & ->)]; simpl; lia.
    + destruct (response_effect service prompt just_reply kwargs w0)
        as (_ & _ & _ & _ & _ & _ & _ & [[-> ->] | (r & Hsvc & -> & ->)]); [lia|].
      destruct (Husage _ _ Hsvc). lia.
    + try rewrite get_messages_flat. simpl. lia.
Qed.

Lemma counters_never_decrease_witness :
  prompt_tokens (self sample_world)
  <= prompt_tokens (self (perform_all mixed_service mixed_calls sample_world)) /\
  completion_tokens (self sample_world)
  <= completion_tokens (self (perform_all mixed_service mixed_calls sample_world)).
Proof.
  apply (counters_never_decrease mixed_service mixed_calls sample_world).
  intros [|[|n]] r; simpl; intros [= <-]; simpl; lia.
Defined.

(** ** Rejected models *)

(** X15: [change_model] raises InvalidModel exactly on the arguments
    that are not members of [Model], and then the session, its current
    identifier and rate pair included, is exactly as before the call. *)
Theorem change_model_rejects (model : pyval) (w : world) :
  ((change_model model w).1 = inl InvalidModel <-> isinstance_Model model = false) /\
  (isinstance_Model model = false -> (change_model model w).2 = w) /\
  (forall e, (change_model model w).1 = inl e -> e = InvalidModel).
Proof.
  destruct (isinstance_Model model) eqn:Hv.
  - destruct model; try discriminate Hv. rewrite change_model_valid. simpl.
    split; [split; discriminate|]. split; [discriminate|]. intros e H. discriminate H.
  - rewrite (change_model_invalid model w Hv). simpl.
    split; [done|]. split; [done|]. by intros e [= <-].
Qed.

Lemma change_model_rejects_witness :
  (change_model (PyTuple3 "gpt-4" 1 2) interrupted_world).1 = inl InvalidModel /\
  (change_model (PyTuple3 "gpt-4" 1 2) interrupted_world).2 = interrupted_world.
Proof.
  split.
  - apply (proj2 (proj1 (change_model_rejects (PyTuple3 "gpt-4" 1 2) interrupted_world))).
    reflexivity.
  - apply (proj1 (proj2 (change_model_rejects (PyTuple3 "gpt-4" 1 2) interrupted_world))).
    reflexivity.
Defined.

(** ** The package settings *)

Lemma configure_snoc (calls : list (string * option string))
    (call : string * option string) (g : settings) :
  configure (calls ++ [call]) g = config call.1 call.2 (configure calls g).
Proof. unfold configure. by rewrite fold_left_app. Qed.

(** X16: after any calls of [config], the key is the one of the last
    call, and the organization is the one of the last call that gave
    one; a call without an organization never unsets it.  Without any
    such call the setting is as before. *)
Theorem configure_last_wins (calls : list (string * option string)) (g : settings) :
  api_key (configure calls g)
  = match last calls with
    | Some call => Some call.1
    | None => api_key g
    end /\
  organization (configure calls g)
  = match last (omap snd calls) with
    | Some name => Some name
    | None => organization g
    end.
Proof.
  induction calls as [|[key org] calls [IHkey IHorg]] using rev_ind.
  - split; reflexivity.
  - rewrite configure_snoc, last_snoc, omap_app. simpl.
    destruct org as [name|]; simpl.
    + rewrite last_snoc. split; reflexivity.
    + rewrite app_nil_r, <- IHorg. split; reflexivity.
Qed.

(** ** The rounding of the cost *)

Lemma round_half_even_nearest (n d : Z) :
  0 < d -> Z.abs (2 * (n - round_half_even n d * d)) <= d.
Proof.
  intros Hd. unfold round_half_even.
  pose proof (Z.div_mod n d ltac:(lia)) as Hn.
  pose proof (Z.mod_pos_bound n d Hd) as Hr.
  assert (Hq : n - n / d * d = n mod d) by (rewrite Hn at 1; ring).
  assert (Hq1 : n - (n / d + 1) * d = n mod d - d) by (rewrite Hn at 1; ring).
  destruct (2 * (n mod d) ?= d) eqn:Hcmp.
  - apply Z.compare_eq in Hcmp.
    destruct (Z.even (n / d)); [rewrite Hq|rewrite Hq1];
      clear Hn Hq Hq1; generalize dependent (n mod d); intros; lia.
  - rewrite Z.compare_lt_iff in Hcmp. rewrite Hq.
    clear Hn Hq Hq1; generalize dependent (n mod d); intros; lia.
  - rewrite Z.compare_gt_iff in Hcmp. rewrite Hq1.
    clear Hn Hq Hq1; generalize dependent (n mod d); intros; lia.
Qed.

Lemma hundredths_nonneg (m : positive) (e : Z) : 0 <= hundredths m e.
Proof.
  unfold hundredths, round_half_even. destruct (0 <=? e) eqn:He.
  - apply Z.leb_le in He.
    assert (0 <= 2 ^ e) by (apply Z.pow_nonneg; lia). nia.
  - apply Z.leb_gt in He.
    assert (0 < 2 ^ (- e)) by (apply Z.pow_pos_nonneg; lia).
    assert (0 <= Z.pos m * 100 / 2 ^ (- e)) by (apply Z.div_pos; lia).
    destruct (_ ?= _); [destruct (Z.even _)| |]; lia.
Qed.

(** X17: a finite cost is printed as an optional sign, the digits of a
    whole number, a point and exactly two digits, and the amount printed
    is a hundredth nearest to the exact value of the double: scaled by
    [2^k], [k] the number of fractional bits, the printed hundredths
    differ from [m * 2^e * 100] by at most one half. *)
Theorem format_2f_nearest_hundredth (x : float) (s : bool) (m : positive) (e : Z) :
  Prim2SF x = S754_finite s m e ->
  exists h,
    0 <= h /\
    format_2f x
    = sign_prefix s +:+ pretty (h / 100) +:+ "." +:+ two_digits (h mod 100) /\
    String.length (two_digits (h mod 100)) = 2%nat /\
    Z.abs (2 * (Z.pos m * 100 * 2 ^ (e + Z.max 0 (- e)) - h * 2 ^ Z.max 0 (- e)))
    <= 2 ^ Z.max 0 (- e).
Proof.
  intros Hx. exists (hundredths m e).
  split; [apply hundredths_nonneg|].
  split; [unfold format_2f; rewrite Hx; reflexivity|].
  split; [apply two_digits_length, Z.mod_pos_bound; lia|].
  unfold hundredths. destruct (0 <=? e) eqn:He.
  - apply Z.leb_le in He. rewrite Z.max_l by lia.
    rewrite Z.add_0_r, Z.pow_0_r, Z.mul_1_r, Z.sub_diag. simpl. lia.
  - apply Z.leb_gt in He. rewrite Z.max_r by lia.
    replace (e + - e) with 0 by lia. rewrite Z.pow_0_r, Z.mul_1_r.
    apply round_half_even_nearest. apply Z.pow_pos_nonneg; lia.
Qed.

Lemma format_2f_nearest_hundredth_witness :
  exists h,
    0 <= h /\
    format_2f 0.125
    = sign_prefix false +:+ pretty (h / 100) +:+ "." +:+ two_digits (h mod 100) /\
    String.length (two_digits (h mod 100)) = 2%nat /\
    Z.abs (2 * (Z.pos 4503599627370496 * 100 * 2 ^ (-55 + Z.max 0 (- -55))
                - h * 2 ^ Z.max 0 (- -55)))
    <= 2 ^ Z.max 0 (- -55).
Proof.
  apply (format_2f_nearest_hundredth 0.125 false 4503599627370496 (-55)).
  vm_compute. reflexivity.
Defined.

(** ** Sessions that never get a completion *)

Lemma response_without_completion (service : nat -> Outcome) (prompt : string)
    (just_reply : bool) (kwargs : gmap string pyval) (w : world) :
  (forall r, service (length (sent w)) <> Returns (Some r)) ->
  self (response service prompt just_reply kwargs w).2 = pending prompt (self w).
Proof.
  intros Hnone. rewrite response_steps; simpl.
  destruct (duplicate_keyword kwargs); [reflexivity|].
  destruct (service (length (sent w))) as [[r|]|msg] eqn:Hsvc; try reflexivity.
  destruct (Hnone r eq_refl).
Qed.

(** X18: as long as the service returns no completion, no method call
    changes a counter or the cost; in a session that the constructor
    returned the counters are then still zero and the cost is still the
    builtin type [str], not a string. *)
Theorem no_completion_no_accounting (service : nat -> Outcome)
    (calls : list method_call) (w : world) :
  (forall n r, service n <> Returns (Some r)) ->
  prompt_tokens (self (perform_all service calls w)) = prompt_tokens (self w) /\
  completion_tokens (self (perform_all service calls w)) = completion_tokens (self w) /\
  cost (self (perform_all service calls w)) = cost (self w) /\
  (forall model system_prompt,
     construct model system_prompt = inr (self w) ->
     prompt_tokens (self (perform_all service calls w)) = 0 /\
     completion_tokens (self (perform_all service calls w)) = 0 /\
     cost (self (perform_all service calls w)) = CostBuiltinStr).
Proof.
  intros Hnone.
  assert (Hkeep : prompt_tokens (self (perform_all service calls w))
                  = prompt_tokens (self w) /\
                  completion_tokens (self (perform_all service calls w))
                  = completion_tokens (self w) /\
                  cost (self (perform_all service calls w)) = cost (self w)).
  { apply (perform_all_respects service
             (fun w1 w2 => prompt_tokens (self w2) = prompt_tokens (self w1) /\
                           completion_tokens (self w2) = completion_tokens (self w1) /\
                           cost (self w2) = cost (self w1))).
    - intros w0. done.
    - intros w1 w2 w3 (? & ? & ?) (? & ? & ?). repeat split; congruence.
    - intros [model | prompt just_reply kwargs | ] w0; simpl.
      + destruct (change_model_effect model w0) as [-> | (m & _ & ->)]; done.
      + rewrite response_without_completion by (intros r; apply Hnone). done.
      + try rewrite get_messages_flat. done. }
  destruct Hkeep as (Hp & Hc & Hcost).
  split; [exact Hp|]. split; [exact Hc|]. split; [exact Hcost|].
  intros model system_prompt Hnew.
  destruct (construct_returns _ _ _ Hnew) as (m & _ & Hs).
  rewrite Hp, Hc, Hcost, Hs. done.
Qed.

Lemma no_completion_no_accounting_witness :
  prompt_tokens (self (perform_all silent_service mixed_calls sample_world)) = 0 /\
  completion_tokens (self (perform_all silent_service mixed_calls sample_world)) = 0 /\
  cost (self (perform_all silent_service mixed_calls sample_world)) = CostBuiltinStr.
Proof.
  apply (proj2 (proj2 (proj2 (no_completion_no_accounting
                                silent_service mixed_calls sample_world
                                (fun n r H => ltac:(discriminate H)))))
           (PyModel GPT4) None).
  reflexivity.
Defined.
